(** * Odoo data migration between two servers

    A shallow embedding of [migrate_data_between_servers.py]: the
    [OdooClient] class (authenticate, field introspection, search_read,
    per-record create) and the two orchestration functions
    [compare_models_between_servers] and [migrate_data_between_servers].

    The XML-RPC servers are external: they are a parameter of the
    development (class [Transport]), every remote call goes through it, is
    recorded in a trace and may answer or raise.  Python exceptions are an
    explicit outcome, [logger.error] appends to a log that is part of the
    state. *)

From stdpp Require Import base option list gmap strings.
From Stdlib Require Import ZArith.

Open Scope string_scope.
Open Scope list_scope.

(** ** Values, records and field descriptions *)

(** Values that travel over XML-RPC, as far as the program looks at them. *)
#[warnings="-register-all"]
Inductive value : Type :=
  | VNone
  | VBool (b : bool)
  | VInt (z : Z)
  | VStr (s : string)
  | VList (l : list value).

(** Python truthiness, as used by [if not uid]. *)
Definition truthy (v : value) : bool :=
  match v with
  | VNone => false
  | VBool b => b
  | VInt z => negb (z =? 0)%Z
  | VStr s => negb (String.eqb s "")
  | VList l => match l with [] => false | _ :: _ => true end
  end.

(** [fields_get] answers a dict from field name to a dict of attributes;
    the dict is kept as the list of its items in insertion order, its keys
    are pairwise distinct ([NoDup (fields_info.*1)]). *)
Abbreviation fields_info := (list (string * gmap string string)).

(** Exceptions: [Exception(msg)] covers what the program raises itself and
    the faults of the transport, [KeyError] is a failed subscript. *)
Inductive exn : Type :=
  | Exception (msg : string)
  | KeyError (key : string).

(** [str(e)], as interpolated in the log messages. *)
Definition exn_str (e : exn) : string :=
  match e with
  | Exception msg => msg
  | KeyError key => "'" ++ key ++ "'"
  end.

Inductive outcome (A : Type) : Type :=
  | Ok (a : A)
  | Raised (e : exn).
Arguments Ok {A} a.
Arguments Raised {A} e.

(** ** Remote calls *)

(** One constructor per XML-RPC method the program calls; the arguments are
    the ones passed on the wire, after the endpoint the proxy points to. *)
Inductive rpc_call : Type :=
  | call_authenticate (endpoint db username password : string)
  | call_fields_get (endpoint db : string) (uid : value)
      (password model : string)
  | call_search_read (endpoint db : string) (uid : value)
      (password model : string) (domain : list (list value))
      (fields : list string)
  | call_create (endpoint db : string) (uid : value)
      (password model : string) (record : gmap string value).

Definition is_create (c : rpc_call) : bool :=
  match c with call_create _ _ _ _ _ _ => true | _ => false end.

(** The identity a call is made under ([authenticate] has none yet). *)
Definition call_uid (c : rpc_call) : option value :=
  match c with
  | call_authenticate _ _ _ _ => None
  | call_fields_get _ _ uid _ _ => Some uid
  | call_search_read _ _ uid _ _ _ _ => Some uid
  | call_create _ _ uid _ _ _ => Some uid
  end.

(** The network with both servers behind it: a state [W] and what each
    method answers in it.  [proxy_error] is [xmlrpc.client.ServerProxy]
    refusing a URI. *)
Class Transport (W : Type) : Type := {
  proxy_error : string → option exn;
  remote_authenticate :
    string → string → string → string → W → W * outcome value;
  remote_fields_get :
    string → string → value → string → string → W → W * outcome fields_info;
  remote_search_read :
    string → string → value → string → string → list (list value) →
    list string → W → W * outcome (list (gmap string value));
  remote_create :
    string → string → value → string → string → gmap string value →
    W → W * outcome value
}.

(** ** Program state and the monad of the embedding *)

Record state (W : Type) : Type := State {
  world : W;
  calls : list rpc_call;
  logged : list string
}.
Arguments State {W} world calls logged.
Arguments world {W} s.
Arguments calls {W} s.
Arguments logged {W} s.

Definition M (W A : Type) : Type := state W → state W * outcome A.

Definition ret {W A} (a : A) : M W A := λ s, (s, Ok a).
Definition raise {W A} (e : exn) : M W A := λ s, (s, Raised e).
Definition bind {W A B} (m : M W A) (k : A → M W B) : M W B :=
  λ s, match m s with
       | (s', Ok a) => k a s'
       | (s', Raised e) => (s', Raised e)
       end.

(** [try: m except Exception as e: h e]. *)
Definition try_except {W A} (m : M W A) (h : exn → M W A) : M W A :=
  λ s, match m s with
       | (s', Ok a) => (s', Ok a)
       | (s', Raised e) => h e s'
       end.

Notation "'do' x <- m ;; k" := (bind m (λ x, k))
  (at level 10, x name, m at level 99, k at level 200,
   format "'[v' 'do'  x  <-  m ;; '/' k ']'").
Notation "'exec' m ;; k" := (bind m (λ _, k))
  (at level 10, m at level 99, k at level 200,
   format "'[v' 'exec'  m ;; '/' k ']'").

(** A pure computation that may raise, run inside the monad. *)
Definition lift {W A} (r : outcome A) : M W A :=
  match r with Ok a => ret a | Raised e => raise e end.

(** [logger.error(msg)] *)
Definition logger_error {W} (msg : string) : M W unit :=
  λ s, (State (world s) (calls s) (logged s ++ [msg]), Ok tt).

(** A remote call: recorded in the trace, answered by the transport. *)
Definition remote {W A} (c : rpc_call) (h : W → W * outcome A) : M W A :=
  λ s, let '(w, r) := h (world s) in
       (State w (calls s ++ [c]) (logged s), r).

(** [x or default] on an optional list: [None] and [[]] are both falsy. *)
Definition or_default {A} (x : option (list A)) (default : list A) : list A :=
  match x with
  | Some (a :: l) => a :: l
  | Some [] | None => default
  end.

(** [d[key]] on a dict of strings. *)
Definition getitem {W} (d : gmap string string) (key : string) : M W string :=
  match d !! key with
  | Some v => ret v
  | None => raise (KeyError key)
  end.

(** ** class OdooClient *)

Record OdooClient : Type := Client {
  url : string;
  db : string;
  username : string;
  password : string;
  common : string;
  models : string;
  uid : value
}.

(** What [authenticate] raises when the server gives no identity. *)
Definition authentication_failed : exn :=
  Exception "Authentication failed: Please check your credentials.".

Section Client.
Context {W : Type} `{!Transport W}.

(** [xmlrpc.client.ServerProxy(uri)]: no traffic; the proxy is the
    endpoint it points to. *)
Definition ServerProxy (uri : string) : M W string :=
  match proxy_error uri with
  | Some e => raise e
  | None => ret uri
  end.

Definition authenticate (self : OdooClient) : M W value :=
  try_except
    (do uid <- remote
         (call_authenticate (common self) (db self) (username self)
            (password self))
         (remote_authenticate (common self) (db self) (username self)
            (password self));;
     if negb (truthy uid)
     then raise
            (Exception "Authentication failed: Please check your credentials.")
     else ret uid)
    (λ e, exec logger_error ("Authentication error: " ++ exn_str e);;
          raise e).

(** [__init__]: [self.uid] does not exist before [authenticate] returns;
    [authenticate] does not read it, the placeholder stands for the
    missing attribute. *)
Definition __init__ (url db username password : string) : M W OdooClient :=
  do common <- ServerProxy (url ++ "/xmlrpc/2/common");;
  do models <- ServerProxy (url ++ "/xmlrpc/2/object");;
  do uid <- authenticate
              (Client url db username password common models VNone);;
  ret (Client url db username password common models uid).

Definition fields_get (self : OdooClient) (model : string)
  : M W fields_info :=
  remote
    (call_fields_get (models self) (db self) (uid self) (password self)
       model)
    (remote_fields_get (models self) (db self) (uid self) (password self)
       model).

(** [[k for k, v in fields_info.items() if v['type'] not in exclude_types]]:
    the first field without a [type] raises. *)
Fixpoint filter_fields (items : fields_info) (exclude_types : list string)
  : outcome (list string) :=
  match items with
  | [] => Ok []
  | (k, v) :: rest =>
      match v !! "type" with
      | None => Raised (KeyError "type")
      | Some t =>
          match filter_fields rest exclude_types with
          | Raised e => Raised e
          | Ok l =>
              Ok (if bool_decide (t ∈ exclude_types) then l else k :: l)
          end
      end
  end.

Definition default_exclude_types : list string :=
  ["many2many"; "one2many"; "many2one"].

Definition get_filtered_fields (self : OdooClient) (model : string)
    (exclude_types : option (list string)) : M W (list string) :=
  let exclude_types := or_default exclude_types default_exclude_types in
  try_except
    (do fields_info <- fields_get self model;;
     do filtered_fields <- lift (filter_fields fields_info exclude_types);;
     ret filtered_fields)
    (λ e, exec logger_error ("Error getting filtered fields: " ++ exn_str e);;
          raise e).

Definition get_data_from_model (self : OdooClient) (model : string)
    (fields : option (list string)) (domain : option (list (list value)))
  : M W (list (gmap string value)) :=
  let domain := or_default domain [] in
  do fields <- match fields with
               | Some (f :: fs) => ret (f :: fs)
               | Some [] | None => get_filtered_fields self model None
               end;;
  try_except
    (do data <- remote
         (call_search_read (models self) (db self) (uid self)
            (password self) model domain fields)
         (remote_search_read (models self) (db self) (uid self)
            (password self) model domain fields);;
     ret data)
    (λ e, exec logger_error ("Error getting data from model: " ++ exn_str e);;
          raise e).

Definition get_fields_from_model (self : OdooClient) (model : string)
  : M W (list string) :=
  try_except
    (do fields_info <- fields_get self model;;
     ret (fields_info.*1))
    (λ e, exec logger_error
                 ("Error getting fields from model: " ++ exn_str e);;
          raise e).
End Client.

(** The dict returned by [compare_field_lists], one field per key. *)
Record comparison : Type := Comparison {
  unique_to_list_1 : list string;
  unique_to_list_2 : list string;
  common_fields : list string
}.

(** [set(...)] is a [gset], [list(a_set)] its [elements]: Python promises
    no order for it, and nothing below relies on one. *)
Definition compare_field_lists (fields_list_1 fields_list_2 : list string)
  : comparison :=
  let fields_1_set : gset string := list_to_set fields_list_1 in
  let fields_2_set : gset string := list_to_set fields_list_2 in
  {| unique_to_list_1 := elements (fields_1_set ∖ fields_2_set);
     unique_to_list_2 := elements (fields_2_set ∖ fields_1_set);
     common_fields := elements (fields_1_set ∩ fields_2_set) |}.

(** [{key: record[key] for key in common_fields if key in record}] *)
Definition project_record (common_fields : list string)
    (record : gmap string value) : gmap string value :=
  foldl (λ acc key,
           match record !! key with
           | Some v => <[key := v]> acc
           | None => acc
           end)
        ∅ common_fields.

Section Workflows.
Context {W : Type} `{!Transport W}.

Definition create (self : OdooClient) (model : string)
    (record : gmap string value) : M W value :=
  remote
    (call_create (models self) (db self) (uid self) (password self) model
       record)
    (remote_create (models self) (db self) (uid self) (password self) model
       record).

(** The [for record in data] loop of [create_data_on_model], with
    [created_ids] as accumulator. *)
Fixpoint create_loop (self : OdooClient) (model : string)
    (data : list (gmap string value)) (created_ids : list value)
  : M W (list value) :=
  match data with
  | [] => ret created_ids
  | record :: rest =>
      do created_ids <-
        try_except
          (do created_id <- create self model record;;
           ret (created_ids ++ [created_id]))
          (λ e, exec logger_error
                       ("Error creating data on model " ++ model ++ ": "
                          ++ exn_str e);;
                ret created_ids);;
      create_loop self model rest created_ids
  end.

Definition create_data_on_model (self : OdooClient) (model : string)
    (data : list (gmap string value)) : M W (list value) :=
  match data with
  | [] => ret []
  | _ :: _ => create_loop self model data []
  end.

(** [OdooClient(server['url'], server['db'], server['username'],
    server['password'])], the expression both workflows build their
    clients with; the subscripts are evaluated left to right. *)
Definition connect (server : gmap string string) : M W OdooClient :=
  do url <- getitem server "url";;
  do db <- getitem server "db";;
  do username <- getitem server "username";;
  do password <- getitem server "password";;
  __init__ url db username password.

Definition compare_models_between_servers
    (server1 server2 : gmap string string) (model : string)
  : M W comparison :=
  try_except
    (do client1 <- connect server1;;
     do fields1 <- get_filtered_fields client1 model None;;
     do client2 <- connect server2;;
     do fields2 <- get_filtered_fields client2 model None;;
     ret (compare_field_lists fields1 fields2))
    (λ e, exec logger_error
                 ("Error comparing models between servers: " ++ exn_str e);;
          raise e).

Definition migrate_data_between_servers
    (server1 server2 : gmap string string) (model : string)
    (fields : option (list string)) (domain : option (list (list value)))
  : M W (list value) :=
  try_except
    (do client1 <- connect server1;;
     do server1_data <- get_data_from_model client1 model fields domain;;
     do client2 <- connect server2;;
     do comparison_result <-
       compare_models_between_servers server1 server2 model;;
     let common_fields := common_fields comparison_result in
     let filtered_data :=
       map (project_record common_fields) server1_data in
     create_data_on_model client2 model filtered_data)
    (λ e, exec logger_error
                 ("Error migrating data between servers: " ++ exn_str e);;
          raise e).
End Workflows.

(** ** Observations on runs

    What the properties below are stated with: predicates on the trace,
    the answers of the servers, the outcome of the create calls. *)

(** [emits P m]: whatever the state, running [m] only appends calls
    satisfying [P] to the trace. *)
Definition emits {W A} (P : rpc_call → Prop) (m : M W A) : Prop :=
  ∀ s, ∃ t, calls (m s).1 = calls s ++ t ∧ Forall P t.

(** A call made under the identity of [self]. *)
Definition by_client (self : OdooClient) (c : rpc_call) : Prop :=
  call_uid c = Some (uid self).

Definition no_create (c : rpc_call) : Prop := is_create c = false.

(** The calls of the reading methods: under the identity of [self], and
    no [create]. *)
Definition as_reader (self : OdooClient) (c : rpc_call) : Prop :=
  by_client self c ∧ no_create c.

(** The calls that log in, and the calls that only look at a server:
    logins and schema introspection. *)
Definition is_authenticate (c : rpc_call) : bool :=
  match c with call_authenticate _ _ _ _ => true | _ => false end.

Definition is_introspection (c : rpc_call) : bool :=
  match c with
  | call_authenticate _ _ _ _ | call_fields_get _ _ _ _ _ => true
  | _ => false
  end.

Definition introspective (c : rpc_call) : Prop := is_introspection c = true.

(** The login call of a client. *)
Definition login_call (self : OdooClient) : rpc_call :=
  call_authenticate (common self) (db self) (username self) (password self).

(** [quiet m]: a run of [m] that returns has logged nothing. *)
Definition quiet {W A} (m : M W A) : Prop :=
  ∀ s s' a, m s = (s', Ok a) → logged s' = logged s.

(** The relational field types. *)
Definition relational_types : list string :=
  ["many2one"; "one2many"; "many2many"].


(** Whether the type of a field is among [types]. *)
Definition has_type_in (types : list string)
    (item : string * gmap string string) : bool :=
  match item.2 !! "type" with
  | Some t => bool_decide (t ∈ types)
  | None => false
  end.

(** The field has a [type] attribute. *)
Definition typed (item : string * gmap string string) : Prop :=
  is_Some (item.2 !! "type").

#[global] Instance typed_dec item : Decision (typed item).
Proof. unfold typed. apply _. Defined.

(** The fields whose type is in [types]. *)
Definition fields_of_type_in (info : fields_info) (types : list string)
  : list string :=
  (filter (λ item, has_type_in types item) info).*1.

Section Observations.
Context {W : Type} `{!Transport W}.

(** The server's answer to [fields_get] for [model], asked by [self] in
    state [s]. *)
Definition schema_answer (self : OdooClient) (model : string) (s : state W)
  : W * outcome fields_info :=
  remote_fields_get (models self) (db self) (uid self) (password self)
    model (world s).

(** The state a [fields_get] call of [self] leaves when the server moves
    to [w]; likewise for [authenticate]. *)
Definition after_fields_get (self : OdooClient) (model : string)
    (s : state W) (w : W) : state W :=
  State w
    (calls s ++
     [call_fields_get (models self) (db self) (uid self) (password self)
        model])
    (logged s).

Definition after_authenticate (self : OdooClient) (s : state W) (w : W)
  : state W :=
  State w
    (calls s ++
     [call_authenticate (common self) (db self) (username self)
        (password self)])
    (logged s).

(** What the server answers to one create call per record of [data], in
    order, each call made in the state the previous one left. *)
Fixpoint create_attempts (self : OdooClient) (model : string)
    (data : list (gmap string value)) (w : W) : list (outcome value) * W :=
  match data with
  | [] => ([], w)
  | record :: rest =>
      let '(w1, r) :=
        remote_create (models self) (db self) (uid self) (password self)
          model record w in
      let '(rs, w2) := create_attempts self model rest w1 in
      (r :: rs, w2)
  end.

(** One create call per record, in order. *)
Definition create_calls (self : OdooClient) (model : string)
    (data : list (gmap string value)) : list rpc_call :=
  map (call_create (models self) (db self) (uid self) (password self) model)
    data.

End Observations.

(** The identifiers of the successful attempts and the log lines of the
    failed ones, in order. *)
Definition created (attempts : list (outcome value)) : list value :=
  omap (λ r, match r with Ok id => Some id | Raised _ => None end) attempts.

Definition create_failures (model : string) (attempts : list (outcome value))
  : list string :=
  omap (λ r, match r with
             | Ok _ => None
             | Raised e =>
                 Some ("Error creating data on model " ++ model ++ ": "
                         ++ exn_str e)%string
             end)
       attempts.

(** ** A concrete network, for running the program

    Two servers, [src] and [dst]; the state counts the records created so
    far on [dst], the identifier of a created record is that count.  [dst]
    refuses to create a record whose [name] is ["bad"]; [src] refuses any
    read of the model ["broken"]; the user ["guest"] is not given an
    identity.  The model ["crm.tag"] has three records on [src],
    ["crm.lead"] has two records and an empty schema, any other model has
    the schema of ["crm.tag"] and no record. *)
Module Demo.
Definition attrs (t : string) : gmap string string := {[ "type" := t ]}.

Definition src_fields : fields_info :=
  [("name", attrs "char"); ("color", attrs "integer");
   ("active", attrs "boolean"); ("partner_id", attrs "many2one")].

Definition dst_fields : fields_info :=
  [("name", attrs "char"); ("color", attrs "integer");
   ("description", attrs "text")].

Definition tag (name : string) (color : Z) : gmap string value :=
  {[ "name" := VStr name; "color" := VInt color; "active" := VBool true ]}.

Definition src_rows (model : string) : list (gmap string value) :=
  if String.eqb model "crm.tag" then [tag "VIP" 5; tag "bad" 1; tag "New" 2]
  else if String.eqb model "crm.lead" then [tag "A" 1; tag "B" 2]
  else [].

Definition is_src (endpoint : string) : bool :=
  String.prefix "src" endpoint.

#[global] Instance net : Transport nat := {|
  proxy_error uri :=
    if String.prefix "ftp" uri
    then Some (Exception "unsupported XML-RPC protocol")
    else None;
  remote_authenticate _ _ user _ w :=
    (w, Ok (if String.eqb user "guest" then VBool false else VInt 2));
  remote_fields_get endpoint _ _ _ model w :=
    (w, if String.eqb model "crm.lead" then Ok []
        else Ok (if is_src endpoint then src_fields else dst_fields));
  remote_search_read _ _ _ _ model _ _ w :=
    (w, if String.eqb model "broken" then Raised (Exception "read fault")
        else Ok (src_rows model));
  remote_create _ _ _ _ _ record w :=
    match record !! "name" with
    | Some (VStr "bad") => (w, Raised (Exception "create fault"))
    | _ => (S w, Ok (VInt (Z.of_nat (S w))))
    end
|}.

Definition server (host user : string) : gmap string string :=
  {[ "url" := host; "db" := "prod"; "username" := user;
     "password" := "secret" ]}.

Definition src : gmap string string := server "src" "admin".
Definition dst : gmap string string := server "dst" "admin".

Definition start : state nat := State 0 [] [].

Definition src_client : OdooClient :=
  Client "src" "prod" "admin" "secret" "src/xmlrpc/2/common"
    "src/xmlrpc/2/object" (VInt 2).

Definition dst_client : OdooClient :=
  Client "dst" "prod" "admin" "secret" "dst/xmlrpc/2/common"
    "dst/xmlrpc/2/object" (VInt 2).

(** What the comparison of the two schemas answers. *)
Definition cmp : comparison :=
  compare_field_lists ["name"; "color"; "active"]
    ["name"; "color"; "description"].

(** The states a migration of [model] goes through before its create
    loop. *)
Definition connected : state nat := (connect src start).1.
Definition read (model : string) : state nat :=
  (get_data_from_model src_client model None None connected).1.
Definition reconnected (model : string) : state nat :=
  (connect dst (read model)).1.
Definition compared (model : string) : state nat :=
  (compare_models_between_servers src dst model (reconnected model)).1.
End Demo.

(** A second network, with one server that misbehaves: the model
    ["untyped"] has a field without a [type] attribute, any call about the
    model ["down"] and any login of the user ["down"] fails in the
    transport; the server keeps no state. *)
Module Flaky.
Definition refused : exn := Exception "connection refused".

#[global] Instance net : Transport unit := {|
  proxy_error uri :=
    if String.prefix "ftp" uri
    then Some (Exception "unsupported XML-RPC protocol")
    else None;
  remote_authenticate _ _ user _ w :=
    (w, if String.eqb user "down" then Raised refused else Ok (VInt 7));
  remote_fields_get _ _ _ _ model w :=
    (w, if String.eqb model "down" then Raised refused
        else if String.eqb model "untyped"
             then Ok [("name", Demo.attrs "char"); ("note", ∅)]
             else Ok Demo.src_fields);
  remote_search_read _ _ _ _ model _ _ w :=
    (w, if String.eqb model "down" then Raised refused else Ok []);
  remote_create _ _ _ _ _ _ w := (w, Ok (VInt 1))
|}.

Definition start : state unit := State tt [] [].

Definition client : OdooClient :=
  Client "host" "prod" "admin" "secret" "host/xmlrpc/2/common"
    "host/xmlrpc/2/object" (VInt 7).
End Flaky.

(** ** Reasoning about runs *)

Section Emits.
Context {W : Type} (P : rpc_call → Prop).

Lemma emits_ret {A} (a : A) : emits (W:=W) P (ret a).
Proof. intros s. exists []. by rewrite app_nil_r. Qed.

Lemma emits_raise {A} (e : exn) : emits (W:=W) (A:=A) P (raise e).
Proof. intros s. exists []. by rewrite app_nil_r. Qed.

Lemma emits_logger_error (msg : string) : emits (W:=W) P (logger_error msg).
Proof. intros s. exists []. by rewrite app_nil_r. Qed.

Lemma emits_remote {A} (c : rpc_call) (h : W → W * outcome A) :
  P c → emits P (remote c h).
Proof.
  intros Hc s. exists [c]. unfold remote.
  destruct (h (world s)) as [w r]. simpl. by repeat constructor.
Qed.

Lemma emits_bind {A B} (m : M W A) (k : A → M W B) :
  emits P m → (∀ a, emits P (k a)) → emits P (bind m k).
Proof.
  intros Hm Hk s. unfold bind.
  destruct (Hm s) as (t & Et & Ft).
  destruct (m s) as [s' [a | e]]; simpl in Et.
  - destruct (Hk a s') as (t' & Et' & Ft').
    exists (t ++ t'). rewrite Et', Et, app_assoc.
    split; [done | by apply Forall_app].
  - by exists t.
Qed.

Lemma emits_try_except {A} (m : M W A) (h : exn → M W A) :
  emits P m → (∀ e, emits P (h e)) → emits P (try_except m h).
Proof.
  intros Hm Hh s. unfold try_except.
  destruct (Hm s) as (t & Et & Ft).
  destruct (m s) as [s' [a | e]]; simpl in Et.
  - by exists t.
  - destruct (Hh e s') as (t' & Et' & Ft').
    exists (t ++ t'). rewrite Et', Et, app_assoc.
    split; [done | by apply Forall_app].
Qed.

Lemma emits_log_raise {A} (msg : string) (e : exn) :
  emits (W:=W) (A:=A) P (exec logger_error msg;; raise e).
Proof.
  apply emits_bind; [apply emits_logger_error | intros; apply emits_raise].
Qed.

Lemma emits_getitem (d : gmap string string) (key : string) :
  emits (W:=W) P (getitem d key).
Proof.
  unfold getitem. destruct (d !! key); [apply emits_ret | apply emits_raise].
Qed.

Lemma emits_lift {A} (r : outcome A) : emits (W:=W) P (lift r).
Proof. destruct r; [apply emits_ret | apply emits_raise]. Qed.

Lemma emits_ServerProxy `{!Transport W} (uri : string) :
  emits P (ServerProxy uri).
Proof.
  unfold ServerProxy.
  destruct (proxy_error uri); [apply emits_raise | apply emits_ret].
Qed.
End Emits.

Create HintDb emits.
#[local] Hint Resolve emits_ret emits_raise emits_logger_error emits_log_raise
  emits_getitem emits_lift emits_ServerProxy : emits.

(** Splits a program along its binds and handlers, leaving the remote
    calls. *)
Ltac emits_step :=
  lazymatch goal with
  | |- emits _ (bind _ _) => apply emits_bind; [| intros ?]
  | |- emits _ (try_except _ _) => apply emits_try_except; [| intros ?]
  | |- emits _ _ => solve [auto with emits]
  end.

Section EmitsClient.
Context {W : Type} `{!Transport W}.

Lemma emits_authenticate (self : OdooClient) :
  emits (λ c, is_create c = false) (authenticate self).
Proof.
  unfold authenticate. repeat emits_step.
  - by apply emits_remote.
  - destruct (negb (truthy a)); auto with emits.
Qed.

Lemma emits_init (url db username password : string) :
  emits (λ c, is_create c = false) (__init__ url db username password).
Proof. unfold __init__. repeat emits_step. apply emits_authenticate. Qed.

Lemma emits_connect (server : gmap string string) :
  emits (λ c, is_create c = false) (connect server).
Proof. unfold connect. repeat emits_step. apply emits_init. Qed.

Lemma emits_get_filtered_fields self model exclude_types :
  emits (as_reader self) (get_filtered_fields self model exclude_types).
Proof.
  unfold get_filtered_fields, fields_get. repeat emits_step.
  by apply emits_remote.
Qed.


Lemma emits_get_data_from_model self model fields domain :
  emits (as_reader self) (get_data_from_model self model fields domain).
Proof.
  unfold get_data_from_model. repeat emits_step.
  - destruct fields as [[| f fs] |];
      auto using emits_get_filtered_fields with emits.
  - by apply emits_remote.
Qed.

Lemma emits_weaken {A} (P Q : rpc_call → Prop) (m : M W A) :
  (∀ c, P c → Q c) → emits P m → emits Q m.
Proof.
  intros HPQ Hm s. destruct (Hm s) as (t & Et & Ft).
  exists t. split; [done |]. eapply Forall_impl; eauto.
Qed.

Lemma emits_compare_models_between_servers server1 server2 model :
  emits (λ c, is_create c = false)
    (compare_models_between_servers server1 server2 model).
Proof.
  unfold compare_models_between_servers. repeat emits_step;
    first [ apply emits_connect
          | eapply emits_weaken;
            [| apply emits_get_filtered_fields]; by intros ? [_ ?] ].
Qed.
End EmitsClient.

(** ** Field listings *)

Lemma has_type_in_ext (types1 types2 : list string) item :
  (∀ t, t ∈ types1 ↔ t ∈ types2) →
  has_type_in types1 item = has_type_in types2 item.
Proof.
  intros Heq. unfold has_type_in. destruct (item.2 !! "type"); [| done].
  apply bool_decide_ext, Heq.
Qed.

Lemma fields_of_type_in_ext (info : fields_info) types1 types2 :
  (∀ t, t ∈ types1 ↔ t ∈ types2) →
  fields_of_type_in info types1 = fields_of_type_in info types2.
Proof.
  intros Heq. unfold fields_of_type_in. f_equal.
  apply list_filter_iff. intros item. by rewrite (has_type_in_ext _ _ _ Heq).
Qed.

Lemma relational_types_default t :
  t ∈ default_exclude_types ↔ t ∈ relational_types.
Proof.
  unfold default_exclude_types, relational_types.
  rewrite !elem_of_cons, !elem_of_nil. tauto.
Qed.

(** The comprehension is a [filter], provided every field has a type. *)
Lemma filter_fields_Ok (info : fields_info) (types l : list string) :
  filter_fields info types = Ok l ↔
  Forall typed info ∧ l = (filter (λ item, ¬ has_type_in types item) info).*1.
Proof.
  revert l. induction info as [| [k v] info IH]; intros l.
  - simpl. split; [intros [= <-] | intros [_ ->]]; by rewrite ?filter_nil.
  - simpl filter_fields. rewrite Forall_cons. unfold typed at 1. simpl.
    destruct (v !! "type") as [t |] eqn:Et; cycle 1.
    { split; [done |]. by intros [[[? ?] _] _]. }
    assert (has_type_in types (k, v) = bool_decide (t ∈ types)) as Hh.
    { unfold has_type_in. simpl. by rewrite Et. }
    destruct (filter_fields info types) as [l' | e].
    + destruct (IH l') as [[Hty ->] _]; [done |].
      case_bool_decide as Hin.
      * rewrite filter_cons_False by (rewrite Hh; simpl; tauto).
        split; [intros [= <-]; eauto | by intros [_ ->]].
      * rewrite filter_cons_True by (rewrite Hh; simpl; tauto).
        split; [intros [= <-]; eauto | by intros [_ ->]].
    + split; [done |]. intros [[_ Hty] _].
      by pose proof (proj2 (IH _) (conj Hty eq_refl)).
Qed.

Lemma filter_fields_total (info : fields_info) (types : list string) :
  Forall typed info → ∃ l, filter_fields info types = Ok l.
Proof. intros Hty. eexists. by apply filter_fields_Ok. Qed.

Lemma elem_of_kept (info : fields_info) (types : list string) (k : string) :
  k ∈ (filter (λ item, ¬ has_type_in types item) info).*1 ↔
  ∃ v, (k, v) ∈ info ∧ has_type_in types (k, v) = false.
Proof.
  rewrite list_elem_of_fmap. split.
  - intros ([k' v] & -> & Hin). apply list_elem_of_filter in Hin as [Hno Hin].
    exists v. split; [done |]. by apply Is_true_false_1.
  - intros (v & Hin & Hno). exists (k, v). split; [done |].
    apply list_elem_of_filter. split; [| done]. by apply Is_true_false_2.
Qed.

Lemma elem_of_fields_of_type_in (info : fields_info) types (k : string) :
  k ∈ fields_of_type_in info types ↔
  ∃ v, (k, v) ∈ info ∧ has_type_in types (k, v) = true.
Proof.
  unfold fields_of_type_in. rewrite list_elem_of_fmap. split.
  - intros ([k' v] & -> & Hin). apply list_elem_of_filter in Hin as [Hyes Hin].
    exists v. split; [done |]. by apply Is_true_true_1.
  - intros (v & Hin & Hyes). exists (k, v). split; [done |].
    apply list_elem_of_filter. split; [| done]. by apply Is_true_true_2.
Qed.

(** A dict has one item per key. *)
Lemma NoDup_fst_item (info : fields_info) k v1 v2 :
  NoDup info.*1 → (k, v1) ∈ info → (k, v2) ∈ info → v1 = v2.
Proof.
  intros Hnd H1 H2.
  apply list_elem_of_lookup in H1 as [i1 H1], H2 as [i2 H2].
  assert (i1 = i2) as ->; [| congruence].
  eapply NoDup_lookup; [done | |]; rewrite list_lookup_fmap.
  - by rewrite H1.
  - by rewrite H2.
Qed.


Lemma kept_disjoint_excluded (info : fields_info) (types : list string) :
  NoDup info.*1 →
  (list_to_set (filter (λ item, ¬ has_type_in types item) info).*1
     ∩ list_to_set (fields_of_type_in info types) : gset string) = ∅.
Proof.
  intros Hnd. apply set_eq. intros k.
  rewrite elem_of_intersection, !elem_of_list_to_set, elem_of_kept,
    elem_of_fields_of_type_in.
  split; [| set_solver].
  intros [(v1 & Hin1 & Hno) (v2 & Hin2 & Hyes)].
  rewrite (NoDup_fst_item _ _ _ _ Hnd Hin1 Hin2) in Hno. congruence.
Qed.

Section Listings.
Context {W : Type} `{!Transport W}.

Lemma get_filtered_fields_answered self model exclude_types s w info :
  schema_answer self model s = (w, Ok info) →
  get_filtered_fields self model exclude_types s =
    let s1 := after_fields_get self model s w in
    match
      filter_fields info (or_default exclude_types default_exclude_types)
    with
    | Ok l => (s1, Ok l)
    | Raised e =>
        (State w (calls s1)
           (logged s ++
            [("Error getting filtered fields: " ++ exn_str e)%string]),
         Raised e)
    end.
Proof.
  unfold schema_answer, get_filtered_fields, fields_get, try_except, bind,
    remote.
  intros ->. simpl.
  by destruct (filter_fields info _).
Qed.

Lemma get_fields_from_model_answered self model s w info :
  schema_answer self model s = (w, Ok info) →
  get_fields_from_model self model s =
    (after_fields_get self model s w, Ok info.*1).
Proof.
  unfold schema_answer, get_fields_from_model, fields_get, try_except, bind,
    remote.
  by intros ->.
Qed.

(** What a successful listing contains. *)
Lemma get_filtered_fields_Ok self model exclude_types s w info s' l :
  schema_answer self model s = (w, Ok info) →
  get_filtered_fields self model exclude_types s = (s', Ok l) →
  l = (filter
         (λ item,
            ¬ has_type_in (or_default exclude_types default_exclude_types)
                item)
         info).*1.
Proof.
  intros Hans. rewrite (get_filtered_fields_answered _ _ _ _ _ _ Hans).
  simpl. destruct (filter_fields info _) as [l' | e] eqn:El; [| done].
  intros [= _ <-]. by apply filter_fields_Ok in El as [_ ->].
Qed.

(** A listing succeeds as soon as the server answers and every field has
    a type. *)
Lemma get_filtered_fields_returns self model exclude_types s w info :
  schema_answer self model s = (w, Ok info) →
  Forall typed info →
  ∃ l, get_filtered_fields self model exclude_types s =
         (after_fields_get self model s w, Ok l).
Proof.
  intros Hans Hty. rewrite (get_filtered_fields_answered _ _ _ _ _ _ Hans).
  destruct (filter_fields_total info
              (or_default exclude_types default_exclude_types) Hty)
    as [l ->].
  by exists l.
Qed.

(** With the default exclusion the listing and the relational fields do
    not meet. *)
Lemma default_listing_disjoint self model exclude_types s w info s' l :
  or_default exclude_types default_exclude_types = default_exclude_types →
  schema_answer self model s = (w, Ok info) →
  NoDup info.*1 →
  get_filtered_fields self model exclude_types s = (s', Ok l) →
  (list_to_set l ∩ list_to_set (fields_of_type_in info relational_types)
     : gset string) = ∅.
Proof.
  intros Hdef Hans Hnd Hrun.
  rewrite (get_filtered_fields_Ok _ _ _ _ _ _ _ _ Hans Hrun), Hdef.
  rewrite <- (fields_of_type_in_ext info _ _ relational_types_default).
  by apply kept_disjoint_excluded.
Qed.
End Listings.

(** ** Properties of the field listings and of the comparison *)

Section ListingProperties.
Context {W : Type} `{!Transport W}.


(** C4: with the default exclusion set, the list [get_filtered_fields]
    returns holds no field whose type is many2many, one2many or
    many2one; and it does return a list whenever the server answers a
    schema in which every field has a type. *)
Theorem default_listing_excludes_relational_fields
    (self : OdooClient) (model : string) (s : state W) (w : W)
    (info : fields_info) :
  schema_answer self model s = (w, Ok info) →
  NoDup info.*1 →
  (∀ s' l,
     get_filtered_fields self model None s = (s', Ok l) →
     (list_to_set l ∩ list_to_set (fields_of_type_in info relational_types)
        : gset string) = ∅) ∧
  (Forall typed info →
   ∃ s' l, get_filtered_fields self model None s = (s', Ok l)).
Proof.
  intros Hans Hnd. split.
  - intros s' l Hrun.
    exact (default_listing_disjoint self model None s w info s' l eq_refl
             Hans Hnd Hrun).
  - intros Hty.
    destruct (get_filtered_fields_returns self model None s w info Hans Hty)
      as [l Hrun].
    eauto.
Qed.

(** C9: an empty [exclude_types] list is the same call as no list at
    all: the default relational set is used, so the listing obtained with
    [[]] still leaves the relational fields out.  The same fallback makes
    [fields=[]] in [get_data_from_model] the same call as no [fields]. *)
Theorem empty_list_argument_falls_back_to_default
    (self : OdooClient) (model : string)
    (domain : option (list (list value))) :
  get_filtered_fields (W:=W) self model (Some [])
    = get_filtered_fields self model None ∧
  get_data_from_model (W:=W) self model (Some []) domain
    = get_data_from_model self model None domain ∧
  ∀ (s : state W) w info s' l,
    schema_answer self model s = (w, Ok info) →
    NoDup info.*1 →
    get_filtered_fields self model (Some []) s = (s', Ok l) →
    (list_to_set l ∩ list_to_set (fields_of_type_in info relational_types)
       : gset string) = ∅.
Proof.
  split; [reflexivity |]. split; [reflexivity |].
  intros s w info s' l Hans Hnd Hrun.
  exact (default_listing_disjoint self model (Some []) s w info s' l eq_refl
           Hans Hnd Hrun).
Qed.
End ListingProperties.

(** C5: the common fields of a comparison do not depend on the order of
    the two lists, as sets; and no field reported as unique to one list is
    among the common fields. *)
Theorem comparison_symmetric_and_disjoint
    (fields_list_1 fields_list_2 : list string) :
  let ab := compare_field_lists fields_list_1 fields_list_2 in
  let ba := compare_field_lists fields_list_2 fields_list_1 in
  (list_to_set (common_fields ab) : gset string)
    = list_to_set (common_fields ba) ∧
  (list_to_set (unique_to_list_1 ab) ∩ list_to_set (common_fields ab)
     : gset string) = ∅ ∧
  (list_to_set (unique_to_list_2 ab) ∩ list_to_set (common_fields ab)
     : gset string) = ∅.
Proof.
  simpl. rewrite !list_to_set_elements_L.
  repeat split; apply set_eq; intros k;
    rewrite ?elem_of_intersection, ?elem_of_difference, ?elem_of_empty;
    tauto.
Qed.



Lemma default_listing_excludes_relational_fields_witness :
  (∀ s' l,
     get_filtered_fields Demo.src_client "crm.tag" None Demo.start
       = (s', Ok l) →
     (list_to_set l
        ∩ list_to_set (fields_of_type_in Demo.src_fields relational_types)
        : gset string) = ∅) ∧
  (Forall typed Demo.src_fields →
   ∃ s' l,
     get_filtered_fields Demo.src_client "crm.tag" None Demo.start
       = (s', Ok l)).
Proof.
  apply (default_listing_excludes_relational_fields Demo.src_client "crm.tag"
           Demo.start 0 Demo.src_fields).
  - reflexivity.
  - apply (bool_decide_unpack _). vm_compute. exact I.
Defined.

Lemma empty_list_argument_falls_back_to_default_witness :
  (list_to_set ["name"; "color"; "active"]
     ∩ list_to_set (fields_of_type_in Demo.src_fields relational_types)
     : gset string) = ∅.
Proof.
  apply (proj2 (proj2 (empty_list_argument_falls_back_to_default
                         Demo.src_client "crm.tag" None))
           Demo.start 0 Demo.src_fields
           (State 0
              [call_fields_get "src/xmlrpc/2/object" "prod" (VInt 2) "secret"
                 "crm.tag"] [])).
  - reflexivity.
  - apply (bool_decide_unpack _). vm_compute. exact I.
  - vm_compute. reflexivity.
Defined.

(** ** The create loop *)

Section CreateLoop.
Context {W : Type} `{!Transport W}.

Lemma create_attempts_length self model data w :
  length (create_attempts self model data w).1 = length data.
Proof.
  revert w. induction data as [| record rest IH]; intros w; simpl; [done |].
  destruct (remote_create _ _ _ _ _ _ _) as [w1 r].
  specialize (IH w1). destruct (create_attempts self model rest w1) as [rs w2].
  simpl in *. by rewrite IH.
Qed.

Lemma create_loop_run self model data created_ids s :
  create_loop self model data created_ids s =
    let '(rs, w) := create_attempts self model data (world s) in
    (State w (calls s ++ create_calls self model data)
       (logged s ++ create_failures model rs),
     Ok (created_ids ++ created rs)).
Proof.
  revert created_ids s.
  induction data as [| record rest IH]; intros created_ids s.
  - simpl. unfold ret. destruct s. simpl. by rewrite !app_nil_r.
  - simpl. unfold bind at 1, try_except, bind at 1, create, remote.
    destruct (remote_create _ _ _ _ _ _ _) as [w1 [id | e]]; simpl;
      rewrite IH; simpl;
      destruct (create_attempts self model rest w1) as [rs w2]; simpl;
      by rewrite <- !app_assoc.
Qed.

Lemma create_data_on_model_run self model data s :
  create_data_on_model self model data s =
    let '(rs, w) := create_attempts self model data (world s) in
    (State w (calls s ++ create_calls self model data)
       (logged s ++ create_failures model rs),
     Ok (created rs)).
Proof.
  destruct data as [| record rest].
  - simpl. unfold ret. destruct s. simpl. by rewrite !app_nil_r.
  - unfold create_data_on_model. by rewrite create_loop_run.
Qed.

Lemma create_data_on_model_returns self model data s :
  ∃ s' ids, create_data_on_model self model data s = (s', Ok ids).
Proof.
  rewrite create_data_on_model_run.
  destruct (create_attempts self model data (world s)); eauto.
Qed.

(** C2: [create_data_on_model] issues one create call per record, in
    input order, whatever the earlier calls answered; it never raises;
    each failed call adds one line to the log and nothing else; the list
    returned holds the identifiers answered by the successful calls, in
    input order.  With three records of which the second fails, two
    identifiers come back, those of the first and the third record, and
    one failure is logged. *)
Theorem create_data_on_model_isolates_failures
    (self : OdooClient) (model : string) (data : list (gmap string value))
    (s : state W) :
  let attempts := (create_attempts self model data (world s)).1 in
  let s' := (create_data_on_model self model data s).1 in
  length attempts = length data ∧
  create_data_on_model self model data s = (s', Ok (created attempts)) ∧
  calls s' = calls s ++ create_calls self model data ∧
  logged s' = logged s ++ create_failures model attempts ∧
  ∀ id1 e id3, attempts = [Ok id1; Raised e; Ok id3] →
    create_data_on_model self model data s = (s', Ok [id1; id3]) ∧
    length (logged s') = S (length (logged s)).
Proof.
  simpl. split; [apply create_attempts_length |].
  rewrite create_data_on_model_run.
  destruct (create_attempts self model data (world s)) as [rs w]. simpl.
  do 3 (split; [done |]).
  intros id1 e id3 ->. simpl. split; [done |].
  rewrite length_app. simpl. lia.
Qed.
End CreateLoop.

Lemma create_data_on_model_isolates_failures_witness :
  create_data_on_model Demo.dst_client "crm.tag"
    [Demo.tag "VIP" 5; Demo.tag "bad" 1; Demo.tag "New" 2] Demo.start
  = (State 2
       (create_calls Demo.dst_client "crm.tag"
          [Demo.tag "VIP" 5; Demo.tag "bad" 1; Demo.tag "New" 2])
       ["Error creating data on model crm.tag: create fault"],
     Ok [VInt 1; VInt 2]).
Proof.
  destruct (create_data_on_model_isolates_failures Demo.dst_client "crm.tag"
              [Demo.tag "VIP" 5; Demo.tag "bad" 1; Demo.tag "New" 2]
              Demo.start)
    as (_ & _ & _ & _ & Hthree).
  destruct (Hthree (VInt 1) (Exception "create fault") (VInt 2)) as [Hrun _].
  - vm_compute. reflexivity.
  - rewrite Hrun. vm_compute. reflexivity.
Defined.

(** ** Projection onto the common fields *)

Lemma project_record_fold (common_fields : list string)
    (record acc : gmap string value) (k : string) :
  foldl (λ acc key,
           match record !! key with
           | Some v => <[key := v]> acc
           | None => acc
           end)
        acc common_fields !! k
  = if bool_decide (k ∈ common_fields)
    then match record !! k with Some v => Some v | None => acc !! k end
    else acc !! k.
Proof.
  revert acc. induction common_fields as [| key rest IH]; intros acc.
  - by rewrite bool_decide_eq_false_2 by apply not_elem_of_nil.
  - cbn [foldl]. rewrite IH. destruct (decide (k = key)) as [-> | Hne].
    + rewrite (bool_decide_eq_true_2 (key ∈ key :: rest))
        by apply list_elem_of_here.
      destruct (record !! key) as [v |] eqn:Ev.
      * rewrite lookup_insert_eq. by case_bool_decide.
      * by case_bool_decide.
    + assert (match record !! key with
              | Some v => <[key := v]> acc
              | None => acc
              end !! k = acc !! k) as ->.
      { destruct (record !! key); [by rewrite lookup_insert_ne | done]. }
      rewrite (bool_decide_ext (k ∈ key :: rest) (k ∈ rest)); [done |].
      rewrite elem_of_cons. tauto.
Qed.

Lemma project_record_lookup (common_fields : list string)
    (record : gmap string value) (k : string) :
  project_record common_fields record !! k
  = if bool_decide (k ∈ common_fields) then record !! k else None.
Proof.
  unfold project_record. rewrite project_record_fold, lookup_empty.
  case_bool_decide; [| done]. by destruct (record !! k).
Qed.

Lemma project_record_nil (record : gmap string value) :
  project_record [] record = ∅.
Proof. reflexivity. Qed.

(** ** The migration, stage by stage *)

Section Migration.
Context {W : Type} `{!Transport W}.

Lemma emits_run {A} (P : rpc_call → Prop) (m : M W A) s s' r :
  emits P m → m s = (s', r) → ∃ t, calls s' = calls s ++ t ∧ Forall P t.
Proof.
  intros Hm Hrun. destruct (Hm s) as (t & Et & Ft).
  rewrite Hrun in Et. eauto.
Qed.

(** A fault of the [search_read] call is logged and raised again, no data
    comes back. *)
Lemma get_data_from_model_fault self model f fs domain s w e :
  remote_search_read (models self) (db self) (uid self) (password self)
    model (or_default domain []) (f :: fs) (world s) = (w, Raised e) →
  get_data_from_model self model (Some (f :: fs)) domain s =
    (State w
       (calls s ++
        [call_search_read (models self) (db self) (uid self) (password self)
           model (or_default domain []) (f :: fs)])
       (logged s ++
        [("Error getting data from model: " ++ exn_str e)%string]),
     Raised e).
Proof.
  intros Hfault.
  unfold get_data_from_model, try_except, bind, ret, remote.
  by rewrite Hfault.
Qed.

(** Up to the end of the read no create call is made. *)
Lemma read_stage_calls server1 model fields domain s s1 client1 s2 r :
  connect server1 s = (s1, Ok client1) →
  get_data_from_model client1 model fields domain s1 = (s2, r) →
  ∃ t, calls s2 = calls s ++ t ∧ Forall no_create t.
Proof.
  intros Hc Hr.
  destruct (emits_run _ _ _ _ _ (emits_connect server1) Hc) as (t1 & E1 & F1).
  destruct (emits_run _ _ _ _ _
              (emits_get_data_from_model client1 model fields domain) Hr)
    as (t2 & E2 & F2).
  exists (t1 ++ t2). rewrite E2, E1, app_assoc. split; [done |].
  apply Forall_app. split; [done |].
  eapply Forall_impl; [exact F2 |]. by intros c [_ ?].
Qed.


(** After a successful read, what is left of the migration. *)
Lemma migrate_after_read
    server1 server2 model fields domain s s1 client1 s2 data :
  connect server1 s = (s1, Ok client1) →
  get_data_from_model client1 model fields domain s1 = (s2, Ok data) →
  migrate_data_between_servers server1 server2 model fields domain s =
    try_except
      (do client2 <- connect server2;;
       do comparison_result <-
         compare_models_between_servers server1 server2 model;;
       create_data_on_model client2 model
         (map (project_record (common_fields comparison_result)) data))
      (λ e, exec logger_error
                   ("Error migrating data between servers: " ++ exn_str e);;
            raise e)
      s2.
Proof.
  intros Hc Hr. unfold migrate_data_between_servers, try_except.
  unfold bind at 1. rewrite Hc. unfold bind at 1. by rewrite Hr.
Qed.

(** When every stage before the create loop succeeds, the migration is the
    create loop on the projected records. *)
Lemma migrate_staged
    server1 server2 model fields domain s s1 client1 s2 data s3 client2 s4
    cmp :
  connect server1 s = (s1, Ok client1) →
  get_data_from_model client1 model fields domain s1 = (s2, Ok data) →
  connect server2 s2 = (s3, Ok client2) →
  compare_models_between_servers server1 server2 model s3 = (s4, Ok cmp) →
  migrate_data_between_servers server1 server2 model fields domain s =
    create_data_on_model client2 model
      (map (project_record (common_fields cmp)) data) s4.
Proof.
  intros Hc1 Hr Hc2 Hcmp.
  rewrite (migrate_after_read _ _ _ _ _ _ _ _ _ _ Hc1 Hr).
  unfold try_except. unfold bind at 1. rewrite Hc2.
  unfold bind at 1. rewrite Hcmp.
  by destruct (create_data_on_model_returns client2 model
                 (map (project_record (common_fields cmp)) data) s4)
    as (s' & ids & ->).
Qed.

(** The create calls of a migration whose earlier stages succeed. *)
Lemma migrate_staged_calls
    server1 server2 model fields domain s s1 client1 s2 data s3 client2 s4
    cmp :
  connect server1 s = (s1, Ok client1) →
  get_data_from_model client1 model fields domain s1 = (s2, Ok data) →
  connect server2 s2 = (s3, Ok client2) →
  compare_models_between_servers server1 server2 model s3 = (s4, Ok cmp) →
  ∃ s' ids,
    migrate_data_between_servers server1 server2 model fields domain s
      = (s', Ok ids) ∧
    calls s' =
      calls s4 ++
      create_calls client2 model
        (map (project_record (common_fields cmp)) data).
Proof.
  intros Hc1 Hr Hc2 Hcmp.
  rewrite (migrate_staged _ _ _ _ _ _ _ _ _ _ _ _ _ _ Hc1 Hr Hc2 Hcmp).
  rewrite create_data_on_model_run.
  destruct (create_attempts _ _ _ _) as [rs w]. eauto.
Qed.
End Migration.

(** ** Properties of the migration *)

Section MigrationProperties.
Context {W : Type} `{!Transport W}.

(** C1: the projection of a record binds exactly the keys that are both
    among the common fields and present in the record, each to the value
    the record has for it; and the create calls of a migration carry, in
    order, the projections of the source records onto the common fields of
    the comparison. *)
Theorem created_records_are_projections
    (server1 server2 : gmap string string) (model : string)
    (fields : option (list string)) (domain : option (list (list value)))
    (s s1 s2 s3 s4 : state W) (client1 client2 : OdooClient)
    (data : list (gmap string value)) (cmp : comparison) :
  (∀ (fs : list string) (record : gmap string value) (k : string),
     project_record fs record !! k
     = if bool_decide (k ∈ fs) then record !! k else None) ∧
  (connect server1 s = (s1, Ok client1) →
   get_data_from_model client1 model fields domain s1 = (s2, Ok data) →
   connect server2 s2 = (s3, Ok client2) →
   compare_models_between_servers server1 server2 model s3 = (s4, Ok cmp) →
   ∃ s' ids,
     migrate_data_between_servers server1 server2 model fields domain s
       = (s', Ok ids) ∧
     calls s' =
       calls s4 ++
       map (λ record,
              call_create (models client2) (db client2) (uid client2)
                (password client2) model
                (project_record (common_fields cmp) record))
           data).
Proof.
  split; [apply project_record_lookup |].
  intros Hc1 Hr Hc2 Hcmp.
  destruct (migrate_staged_calls _ _ _ _ _ _ _ _ _ _ _ _ _ _
              Hc1 Hr Hc2 Hcmp) as (s' & ids & Hrun & Hcalls).
  exists s', ids. split; [done |].
  rewrite Hcalls. unfold create_calls. by rewrite map_map.
Qed.

(** C6: on an empty list [create_data_on_model] returns the empty list
    and leaves the state as it is, no call is made; a migration whose read
    returns no record makes no create call, whatever its later stages do,
    and returns the empty list when they succeed. *)
Theorem empty_input_creates_nothing
    (self : OdooClient) (server1 server2 : gmap string string)
    (model : string) (fields : option (list string))
    (domain : option (list (list value)))
    (s s1 s2 : state W) (client1 : OdooClient) :
  create_data_on_model self model [] s = (s, Ok []) ∧
  (connect server1 s = (s1, Ok client1) →
   get_data_from_model client1 model fields domain s1 = (s2, Ok []) →
   let run :=
     migrate_data_between_servers server1 server2 model fields domain s in
   (∃ t, calls run.1 = calls s ++ t ∧ Forall no_create t) ∧
   (∀ s3 client2 s4 cmp,
      connect server2 s2 = (s3, Ok client2) →
      compare_models_between_servers server1 server2 model s3
        = (s4, Ok cmp) →
      run = (s4, Ok []))).
Proof.
  split; [done |]. intros Hc1 Hr. simpl. split.
  - destruct (read_stage_calls _ _ _ _ _ _ _ _ _ Hc1 Hr) as (t & Et & Ft).
    rewrite (migrate_after_read _ _ _ _ _ _ _ _ _ _ Hc1 Hr).
    match goal with
    | |- context [try_except ?m ?h s2] =>
        assert (emits no_create (try_except m h)) as Htail
    end.
    { repeat emits_step.
      - apply emits_connect.
      - apply emits_compare_models_between_servers.
      - simpl. auto with emits. }
    destruct (Htail s2) as (t' & Et' & Ft').
    exists (t ++ t'). rewrite Et', Et, app_assoc.
    split; [done | by apply Forall_app].
  - intros s3 client2 s4 cmp Hc2 Hcmp.
    by rewrite (migrate_staged _ _ _ _ _ _ _ _ _ _ _ _ _ _ Hc1 Hr Hc2 Hcmp).
Qed.


(** C10: with no common field, the migration still makes one create call
    per source record, each with the empty record as payload. *)
Theorem no_common_field_creates_empty_records
    (server1 server2 : gmap string string) (model : string)
    (fields : option (list string)) (domain : option (list (list value)))
    (s s1 s2 s3 s4 : state W) (client1 client2 : OdooClient)
    (data : list (gmap string value)) (cmp : comparison) :
  connect server1 s = (s1, Ok client1) →
  get_data_from_model client1 model fields domain s1 = (s2, Ok data) →
  connect server2 s2 = (s3, Ok client2) →
  compare_models_between_servers server1 server2 model s3 = (s4, Ok cmp) →
  common_fields cmp = [] →
  ∃ s' ids,
    migrate_data_between_servers server1 server2 model fields domain s
      = (s', Ok ids) ∧
    calls s' =
      calls s4 ++
      replicate (length data)
        (call_create (models client2) (db client2) (uid client2)
           (password client2) model ∅).
Proof.
  intros Hc1 Hr Hc2 Hcmp Hnil.
  destruct (migrate_staged_calls _ _ _ _ _ _ _ _ _ _ _ _ _ _
              Hc1 Hr Hc2 Hcmp) as (s' & ids & Hrun & Hcalls).
  exists s', ids. split; [done |].
  rewrite Hcalls, Hnil. f_equal. unfold create_calls. rewrite map_map.
  clear. induction data as [| record rest IH]; [done |].
  simpl. by rewrite IH.
Qed.
End MigrationProperties.

(** ** Authentication *)

Section Authentication.
Context {W : Type} `{!Transport W}.

Lemma authenticate_run self s :
  authenticate self s =
    let '(w, r) :=
      remote_authenticate (common self) (db self) (username self)
        (password self) (world s) in
    let s1 := after_authenticate self s w in
    let failed e :=
      (State w (calls s1)
         (logged s ++ [("Authentication error: " ++ exn_str e)%string]),
       Raised e) in
    match r with
    | Ok uid => if truthy uid then (s1, Ok uid) else failed authentication_failed
    | Raised e => failed e
    end.
Proof.
  unfold authenticate, try_except, bind, remote.
  destruct (remote_authenticate _ _ _ _ _) as [w [uid | e]]; simpl; [| done].
  by destruct (truthy uid).
Qed.

(** A client that exists holds the truthy identity the server answered. *)
Lemma init_Ok url db username password s s' client :
  __init__ url db username password s = (s', Ok client) →
  let common := (url ++ "/xmlrpc/2/common")%string in
  let models := (url ++ "/xmlrpc/2/object")%string in
  truthy (uid client) = true ∧
  remote_authenticate common db username password (world s)
    = (world s', Ok (uid client)) ∧
  client = Client url db username password common models (uid client).
Proof.
  unfold __init__, ServerProxy. unfold bind at 1.
  destruct (proxy_error (url ++ "/xmlrpc/2/common")); [done |].
  unfold ret at 1. unfold bind at 1.
  destruct (proxy_error (url ++ "/xmlrpc/2/object")); [done |].
  unfold ret at 1. unfold bind at 1. rewrite authenticate_run. simpl.
  destruct (remote_authenticate _ _ _ _ _) as [w [v | e]]; [| done].
  destruct (truthy v) eqn:Ev; [| done].
  unfold ret. intros [= Hs Hc]. by subst s' client.
Qed.

(** The constructor raises what [authenticate] raises. *)
Lemma init_propagates url db username password s s' e :
  let common := (url ++ "/xmlrpc/2/common")%string in
  let models := (url ++ "/xmlrpc/2/object")%string in
  proxy_error common = None →
  proxy_error models = None →
  authenticate (Client url db username password common models VNone) s
    = (s', Raised e) →
  __init__ url db username password s = (s', Raised e).
Proof.
  simpl. intros Hp1 Hp2 Hauth. unfold __init__, ServerProxy.
  rewrite Hp1, Hp2. unfold bind at 1, ret at 1. unfold bind at 1, ret at 1.
  unfold bind at 1. by rewrite Hauth.
Qed.



End Authentication.

(** ** The properties on the concrete network *)

Lemma created_records_are_projections_witness :
  ∃ s' ids,
    migrate_data_between_servers Demo.src Demo.dst "crm.tag" None None
      Demo.start = (s', Ok ids) ∧
    calls s' =
      calls (Demo.compared "crm.tag") ++
      map (λ record,
             call_create "dst/xmlrpc/2/object" "prod" (VInt 2) "secret"
               "crm.tag" (project_record (common_fields Demo.cmp) record))
          (Demo.src_rows "crm.tag").
Proof.
  apply (proj2 (created_records_are_projections Demo.src Demo.dst "crm.tag"
                  None None Demo.start Demo.connected (Demo.read "crm.tag")
                  (Demo.reconnected "crm.tag") (Demo.compared "crm.tag")
                  Demo.src_client Demo.dst_client (Demo.src_rows "crm.tag")
                  Demo.cmp));
    vm_compute; reflexivity.
Defined.

Lemma empty_input_creates_nothing_witness :
  let run :=
    migrate_data_between_servers Demo.src Demo.dst "crm.stage" None None
      Demo.start in
  (∃ t, calls run.1 = calls Demo.start ++ t ∧ Forall no_create t) ∧
  (∀ s3 client2 s4 cmp,
     connect Demo.dst (Demo.read "crm.stage") = (s3, Ok client2) →
     compare_models_between_servers Demo.src Demo.dst "crm.stage" s3
       = (s4, Ok cmp) →
     run = (s4, Ok [])).
Proof.
  apply (proj2 (empty_input_creates_nothing Demo.dst_client Demo.src Demo.dst
                  "crm.stage" None None Demo.start Demo.connected
                  (Demo.read "crm.stage") Demo.src_client));
    vm_compute; reflexivity.
Defined.


Lemma no_common_field_creates_empty_records_witness :
  ∃ s' ids,
    migrate_data_between_servers Demo.src Demo.dst "crm.lead" None None
      Demo.start = (s', Ok ids) ∧
    calls s' =
      calls (Demo.compared "crm.lead") ++
      replicate 2
        (call_create "dst/xmlrpc/2/object" "prod" (VInt 2) "secret" "crm.lead"
           ∅).
Proof.
  apply (no_common_field_creates_empty_records Demo.src Demo.dst "crm.lead"
           None None Demo.start Demo.connected (Demo.read "crm.lead")
           (Demo.reconnected "crm.lead") (Demo.compared "crm.lead")
           Demo.src_client Demo.dst_client (Demo.src_rows "crm.lead")
           (compare_field_lists [] []));
    vm_compute; reflexivity.
Defined.


(** The examples of the specification. *)

Example projection_example :
  project_record ["a"; "c"]
    {[ "a" := VInt 1; "b" := VInt 2; "c" := VInt 3 ]}
  = {[ "a" := VInt 1; "c" := VInt 3 ]}.
Proof. by vm_compute. Qed.

Example crm_tag_comparison :
  get_filtered_fields Demo.src_client "crm.tag" None Demo.start
    = (after_fields_get Demo.src_client "crm.tag" Demo.start 0,
       Ok ["name"; "color"; "active"]) ∧
  (list_to_set (common_fields Demo.cmp) : gset string)
    = {[ "name"; "color" ]} ∧
  unique_to_list_1 Demo.cmp = ["active"] ∧
  unique_to_list_2 Demo.cmp = ["description"].
Proof. repeat split; by vm_compute. Qed.

Example crm_tag_payload :
  project_record (common_fields Demo.cmp) (Demo.tag "VIP" 5)
  = {[ "name" := VStr "VIP"; "color" := VInt 5 ]}.
Proof. by vm_compute. Qed.

(** Three records of which the second is refused: the migration returns
    the identifiers of the first and the third, logs one failure, and has
    attempted all three. *)
Example crm_tag_migration :
  let run :=
    migrate_data_between_servers Demo.src Demo.dst "crm.tag" None None
      Demo.start in
  run.2 = Ok [VInt 1; VInt 2] ∧
  logged run.1 = ["Error creating data on model crm.tag: create fault"] ∧
  length (filter (λ c, is_create c) (calls run.1)) = 3.
Proof. repeat split; by vm_compute. Qed.

(** ** Further properties of the comparison and of the projection *)

(** X1: the three lists of a comparison split the two inputs: the fields
    unique to a list together with the common fields are the fields of that
    list, the two lists of unique fields do not meet, and no output list
    repeats a name, even when the inputs do. *)
Theorem comparison_splits_both_lists (fields_list_1 fields_list_2 : list string) :
  let r := compare_field_lists fields_list_1 fields_list_2 in
  (list_to_set (unique_to_list_1 r) ∪ list_to_set (common_fields r)
     : gset string) = list_to_set fields_list_1 ∧
  (list_to_set (unique_to_list_2 r) ∪ list_to_set (common_fields r)
     : gset string) = list_to_set fields_list_2 ∧
  (list_to_set (unique_to_list_1 r) ∩ list_to_set (unique_to_list_2 r)
     : gset string) = ∅ ∧
  NoDup (unique_to_list_1 r) ∧ NoDup (unique_to_list_2 r) ∧
  NoDup (common_fields r).
Proof.
  simpl. rewrite !list_to_set_elements_L.
  split; [| split; [| split]].
  - apply set_eq. intros k.
    rewrite elem_of_union, elem_of_difference, elem_of_intersection.
    destruct (decide (k ∈ (list_to_set fields_list_2 : gset string))); tauto.
  - apply set_eq. intros k.
    rewrite elem_of_union, elem_of_difference, elem_of_intersection.
    destruct (decide (k ∈ (list_to_set fields_list_1 : gset string))); tauto.
  - apply set_eq. intros k.
    rewrite elem_of_intersection, !elem_of_difference, elem_of_empty. tauto.
  - repeat split; apply NoDup_elements.
Qed.

(** X2: a comparison reports no field unique to the first list exactly
    when every field of the first list is in the second, and likewise for
    the second list. *)
Theorem no_unique_field_iff_included (fields_list_1 fields_list_2 : list string) :
  let r := compare_field_lists fields_list_1 fields_list_2 in
  (unique_to_list_1 r = [] ↔ ∀ k, k ∈ fields_list_1 → k ∈ fields_list_2) ∧
  (unique_to_list_2 r = [] ↔ ∀ k, k ∈ fields_list_2 → k ∈ fields_list_1).
Proof.
  simpl. split; rewrite elements_empty_iff; split.
  - intros Hempty k Hk. destruct (decide (k ∈ fields_list_2)); [done |].
    exfalso. apply (not_elem_of_empty (C:=gset string) k). rewrite <- Hempty.
    apply elem_of_difference. by rewrite !elem_of_list_to_set.
  - intros Hsub k. rewrite elem_of_difference, !elem_of_list_to_set.
    split; [| by intros ?%not_elem_of_empty]. intros [? ?]. naive_solver.
  - intros Hempty k Hk. destruct (decide (k ∈ fields_list_1)); [done |].
    exfalso. apply (not_elem_of_empty (C:=gset string) k). rewrite <- Hempty.
    apply elem_of_difference. by rewrite !elem_of_list_to_set.
  - intros Hsub k. rewrite elem_of_difference, !elem_of_list_to_set.
    split; [| by intros ?%not_elem_of_empty]. intros [? ?]. naive_solver.
Qed.

(** X3: a projected record is a part of the record it comes from: every
    binding it has is a binding of the record, and its keys are the common
    fields the record has. *)
Theorem projection_is_part_of_record
    (fs : list string) (record : gmap string value) :
  project_record fs record ⊆ record ∧
  dom (project_record fs record) = list_to_set fs ∩ dom record.
Proof.
  split.
  - apply map_subseteq_spec. intros k v.
    rewrite project_record_lookup. by case_bool_decide.
  - apply set_eq. intros k.
    rewrite elem_of_intersection, elem_of_list_to_set, !elem_of_dom,
      project_record_lookup.
    case_bool_decide; [tauto |]. split; [by intros [? ?] | tauto].
Qed.

(** X4: projecting twice onto the same fields changes nothing more, a
    record whose keys are all common fields is left as it is, and the
    projection only depends on which names are common, not on their order
    or repetition in the list. *)
Theorem projection_idempotent_and_order_free
    (fs fs' : list string) (record : gmap string value) :
  project_record fs (project_record fs record) = project_record fs record ∧
  ((∀ k, is_Some (record !! k) → k ∈ fs) → project_record fs record = record) ∧
  ((∀ k, k ∈ fs ↔ k ∈ fs') →
   project_record fs record = project_record fs' record).
Proof.
  split; [| split].
  - apply map_eq. intros k. rewrite !project_record_lookup.
    by case_bool_decide.
  - intros Hall. apply map_eq. intros k. rewrite project_record_lookup.
    case_bool_decide as Hk; [done |].
    destruct (record !! k) as [v |] eqn:Ev; [| done].
    exfalso. apply Hk, Hall. by exists v.
  - intros Hsame. apply map_eq. intros k. rewrite !project_record_lookup.
    by rewrite (bool_decide_ext _ _ (Hsame k)).
Qed.

Lemma projection_idempotent_and_order_free_witness :
  project_record ["a"; "b"] {[ "a" := VInt 1 ]} = {[ "a" := VInt 1 ]} ∧
  project_record ["a"; "c"] {[ "a" := VInt 1; "b" := VInt 2 ]}
  = project_record ["c"; "a"; "c"] {[ "a" := VInt 1; "b" := VInt 2 ]}.
Proof.
  split.
  - apply (proj1 (proj2 (projection_idempotent_and_order_free
                           ["a"; "b"] [] {[ "a" := VInt 1 ]}))).
    intros k [v Hk]. destruct (decide (k = "a")) as [-> | Hne].
    + apply list_elem_of_here.
    + by rewrite lookup_singleton_ne in Hk.
  - apply (proj2 (proj2 (projection_idempotent_and_order_free
                           ["a"; "c"] ["c"; "a"; "c"]
                           {[ "a" := VInt 1; "b" := VInt 2 ]}))).
    intros k. rewrite !elem_of_cons, !elem_of_nil. tauto.
Defined.

(** ** Further properties of the field listings *)

Lemma filter_fields_Raised (info : fields_info) (types : list string) (e : exn) :
  filter_fields info types = Raised e → e = KeyError "type".
Proof.
  induction info as [| [k v] info IH]; simpl; [done |].
  destruct (v !! "type"); [| by intros [= <-]].
  destruct (filter_fields info types); [done |]. intros [= <-]. by apply IH.
Qed.

Lemma filter_fields_untyped (info : fields_info) (types : list string) :
  ¬ Forall typed info → filter_fields info types = Raised (KeyError "type").
Proof.
  intros Hno. destruct (filter_fields info types) as [l | e] eqn:Ef.
  - by apply filter_fields_Ok in Ef as [? _].
  - by rewrite (filter_fields_Raised _ _ _ Ef).
Qed.

Lemma filter_keeps_all {A} (P : A → Prop) `{!∀ x, Decision (P x)} (l : list A) :
  Forall P l → filter P l = l.
Proof.
  induction 1 as [| x l Hx _ IH]; [done |].
  by rewrite filter_cons_True, IH.
Qed.

Section ListingFaults.
Context {W : Type} `{!Transport W}.

Lemma get_filtered_fields_fault self model exclude_types s w e :
  schema_answer self model s = (w, Raised e) →
  get_filtered_fields self model exclude_types s =
    (State w (calls (after_fields_get self model s w))
       (logged s ++
        [("Error getting filtered fields: " ++ exn_str e)%string]),
     Raised e).
Proof.
  unfold schema_answer, get_filtered_fields, fields_get, try_except, bind,
    remote.
  by intros ->.
Qed.

Lemma get_fields_from_model_fault self model s w e :
  schema_answer self model s = (w, Raised e) →
  get_fields_from_model self model s =
    (State w (calls (after_fields_get self model s w))
       (logged s ++
        [("Error getting fields from model: " ++ exn_str e)%string]),
     Raised e).
Proof.
  unfold schema_answer, get_fields_from_model, fields_get, try_except, bind,
    remote.
  by intros ->.
Qed.

(** X5: the filtered listing is the full listing with some names left
    out: same order, and no name twice when the schema has none twice. *)
Theorem filtered_listing_is_sublist_of_full_listing
    (self : OdooClient) (model : string)
    (exclude_types : option (list string)) (s s1 s2 : state W) (w : W)
    (info : fields_info) (filtered all : list string) :
  schema_answer self model s = (w, Ok info) →
  get_filtered_fields self model exclude_types s = (s1, Ok filtered) →
  get_fields_from_model self model s = (s2, Ok all) →
  filtered `sublist_of` all ∧ (NoDup info.*1 → NoDup filtered).
Proof.
  intros Hans Hf Ha.
  rewrite (get_filtered_fields_Ok _ _ _ _ _ _ _ _ Hans Hf).
  rewrite (get_fields_from_model_answered _ _ _ _ _ Hans) in Ha.
  injection Ha as _ <-.
  assert ((filter
             (λ item,
                ¬ has_type_in
                    (or_default exclude_types default_exclude_types) item)
             info).*1 `sublist_of` info.*1) as Hsub.
  { apply fmap_sublist, sublist_filter. }
  split; [done |]. intros Hnd. by eapply sublist_NoDup.
Qed.

(** X6: a non-empty exclusion list naming no type that occurs in the
    schema excludes nothing: the filtered listing is then the full
    listing, and both calls leave the same state. *)
Theorem unmatched_exclusion_lists_every_field
    (self : OdooClient) (model : string) (t : string) (ts : list string)
    (s : state W) (w : W) (info : fields_info) :
  schema_answer self model s = (w, Ok info) →
  Forall typed info →
  Forall (λ item, has_type_in (t :: ts) item = false) info →
  get_filtered_fields self model (Some (t :: ts)) s
    = get_fields_from_model self model s ∧
  get_fields_from_model self model s
    = (after_fields_get self model s w, Ok info.*1).
Proof.
  intros Hans Hty Hnone.
  rewrite (get_fields_from_model_answered _ _ _ _ _ Hans).
  split; [| done].
  destruct (get_filtered_fields_returns self model (Some (t :: ts)) s w info
              Hans Hty) as [l Hrun].
  rewrite Hrun. f_equal. f_equal.
  rewrite (get_filtered_fields_Ok _ _ _ _ _ _ _ _ Hans Hrun). simpl.
  f_equal. apply filter_keeps_all.
  eapply Forall_impl; [exact Hnone |]. intros item Hitem.
  by apply Is_true_false_2.
Qed.

(** X7: a field without a [type] attribute makes [get_filtered_fields]
    raise [KeyError('type')], after one call and with one line logged,
    whatever the exclusion list; [get_fields_from_model] does not look at
    the attribute and still answers every name. *)
Theorem field_without_type_raises_KeyError
    (self : OdooClient) (model : string)
    (exclude_types : option (list string)) (s : state W) (w : W)
    (info : fields_info) :
  schema_answer self model s = (w, Ok info) →
  ¬ Forall typed info →
  get_filtered_fields self model exclude_types s =
    (State w (calls (after_fields_get self model s w))
       (logged s ++ ["Error getting filtered fields: 'type'"]),
     Raised (KeyError "type")) ∧
  get_fields_from_model self model s
    = (after_fields_get self model s w, Ok info.*1).
Proof.
  intros Hans Hno. split; [| by apply get_fields_from_model_answered].
  rewrite (get_filtered_fields_answered _ _ _ _ _ _ Hans).
  by rewrite (filter_fields_untyped _ _ Hno).
Qed.

(** X8: when the [fields_get] call itself fails, both listings log one
    line naming the error and raise the same exception; no list comes
    back. *)
Theorem introspection_fault_is_logged_and_raised
    (self : OdooClient) (model : string)
    (exclude_types : option (list string)) (s : state W) (w : W) (e : exn) :
  schema_answer self model s = (w, Raised e) →
  let after line :=
    State w (calls (after_fields_get self model s w))
      (logged s ++ [(line ++ exn_str e)%string]) in
  get_filtered_fields self model exclude_types s
    = (after "Error getting filtered fields: ", Raised e) ∧
  get_fields_from_model self model s
    = (after "Error getting fields from model: ", Raised e).
Proof.
  intros Hans. simpl. split.
  - by apply get_filtered_fields_fault.
  - by apply get_fields_from_model_fault.
Qed.
End ListingFaults.

Lemma filtered_listing_is_sublist_of_full_listing_witness :
  ["name"; "color"; "active"]
    `sublist_of` ["name"; "color"; "active"; "partner_id"] ∧
  (NoDup Demo.src_fields.*1 → NoDup ["name"; "color"; "active"]).
Proof.
  apply (filtered_listing_is_sublist_of_full_listing Demo.src_client "crm.tag"
           None Demo.start
           (after_fields_get Demo.src_client "crm.tag" Demo.start 0)
           (after_fields_get Demo.src_client "crm.tag" Demo.start 0)
           0 Demo.src_fields);
    vm_compute; reflexivity.
Defined.

Lemma unmatched_exclusion_lists_every_field_witness :
  get_filtered_fields Demo.src_client "crm.tag" (Some ["binary"]) Demo.start
    = get_fields_from_model Demo.src_client "crm.tag" Demo.start ∧
  get_fields_from_model Demo.src_client "crm.tag" Demo.start
    = (after_fields_get Demo.src_client "crm.tag" Demo.start 0,
       Ok Demo.src_fields.*1).
Proof.
  apply (unmatched_exclusion_lists_every_field Demo.src_client "crm.tag"
           "binary" [] Demo.start 0 Demo.src_fields).
  - reflexivity.
  - apply (bool_decide_unpack _). vm_compute. exact I.
  - apply (bool_decide_unpack _). vm_compute. exact I.
Defined.

Lemma field_without_type_raises_KeyError_witness :
  get_filtered_fields Flaky.client "untyped" None Flaky.start =
    (State tt
       (calls (after_fields_get Flaky.client "untyped" Flaky.start tt))
       ["Error getting filtered fields: 'type'"],
     Raised (KeyError "type")) ∧
  get_fields_from_model Flaky.client "untyped" Flaky.start
    = (after_fields_get Flaky.client "untyped" Flaky.start tt,
       Ok ["name"; "note"]).
Proof.
  apply (field_without_type_raises_KeyError Flaky.client "untyped" None
           Flaky.start tt [("name", Demo.attrs "char"); ("note", ∅)]).
  - reflexivity.
  - apply (bool_decide_unpack _). vm_compute. exact I.
Defined.

Lemma introspection_fault_is_logged_and_raised_witness :
  get_filtered_fields Flaky.client "down" None Flaky.start
    = (State tt (calls (after_fields_get Flaky.client "down" Flaky.start tt))
         ["Error getting filtered fields: connection refused"],
       Raised Flaky.refused) ∧
  get_fields_from_model Flaky.client "down" Flaky.start
    = (State tt (calls (after_fields_get Flaky.client "down" Flaky.start tt))
         ["Error getting fields from model: connection refused"],
       Raised Flaky.refused).
Proof.
  apply (introspection_fault_is_logged_and_raised Flaky.client "down" None
           Flaky.start tt Flaky.refused).
  reflexivity.
Defined.

(** ** Further properties of the constructor and of [connect] *)

Section Construction.
Context {W : Type} `{!Transport W}.

(** X9: the constructor returns a client as soon as both proxies are
    accepted and the server answers a truthy identity: it has then made the
    login call and no other, logged nothing, and the client holds the four
    connection values, the two endpoints and the identity answered. *)
Theorem constructor_returns_authenticated_client
    (url db username password : string) (s : state W) (w : W) (v : value) :
  let common := (url ++ "/xmlrpc/2/common")%string in
  let models := (url ++ "/xmlrpc/2/object")%string in
  proxy_error common = None →
  proxy_error models = None →
  remote_authenticate common db username password (world s) = (w, Ok v) →
  truthy v = true →
  __init__ url db username password s =
    (State w (calls s ++ [call_authenticate common db username password])
       (logged s),
     Ok (Client url db username password common models v)).
Proof.
  simpl. intros Hp1 Hp2 Hans Hv. unfold __init__, ServerProxy.
  rewrite Hp1, Hp2. unfold bind at 1, ret at 1. unfold bind at 1, ret at 1.
  unfold bind at 1. rewrite authenticate_run. simpl. by rewrite Hans, Hv.
Qed.

(** X10: when the login call fails in the transport, [authenticate] logs
    one line naming the error and raises the same exception, and so does
    the constructor. *)
Theorem login_fault_is_logged_and_raised
    (url db username password : string) (s : state W) (w : W) (e : exn) :
  let common := (url ++ "/xmlrpc/2/common")%string in
  let models := (url ++ "/xmlrpc/2/object")%string in
  let self := Client url db username password common models VNone in
  let after :=
    State w (calls s ++ [call_authenticate common db username password])
      (logged s ++ [("Authentication error: " ++ exn_str e)%string]) in
  remote_authenticate common db username password (world s) = (w, Raised e) →
  authenticate self s = (after, Raised e) ∧
  (proxy_error common = None → proxy_error models = None →
   __init__ url db username password s = (after, Raised e)).
Proof.
  simpl. intros Hans.
  assert (authenticate
            (Client url db username password (url ++ "/xmlrpc/2/common")
               (url ++ "/xmlrpc/2/object") VNone) s
          = (State w
               (calls s ++
                [call_authenticate (url ++ "/xmlrpc/2/common") db username
                   password])
               (logged s ++ [("Authentication error: " ++ exn_str e)%string]),
             Raised e)) as Hauth.
  { rewrite authenticate_run. simpl. by rewrite Hans. }
  split; [done |]. intros Hp1 Hp2. by apply init_propagates.
Qed.

(** X11: a URI that [ServerProxy] refuses makes the constructor raise
    before any traffic: the state is untouched, no login is attempted and
    nothing is logged. *)
Theorem refused_proxy_makes_no_call
    (url db username password : string) (s : state W) (e : exn) :
  let common := (url ++ "/xmlrpc/2/common")%string in
  let models := (url ++ "/xmlrpc/2/object")%string in
  (proxy_error common = Some e →
   __init__ url db username password s = (s, Raised e)) ∧
  (proxy_error common = None → proxy_error models = Some e →
   __init__ url db username password s = (s, Raised e)).
Proof.
  simpl. split.
  - intros Hp. unfold __init__, ServerProxy. rewrite Hp. by unfold bind at 1.
  - intros Hp1 Hp2. unfold __init__, ServerProxy. rewrite Hp1, Hp2.
    unfold bind at 1, ret at 1. by unfold bind at 1.
Qed.

(** X12: a connection dict lacking one of the four keys makes [connect]
    raise [KeyError] for the first key missing, in the order url, db,
    username, password, with the state untouched; a complete dict is passed
    to the constructor as it is. *)
Theorem missing_connection_key_raises_KeyError
    (server : gmap string string) (s : state W) :
  (server !! "url" = None → connect server s = (s, Raised (KeyError "url"))) ∧
  (is_Some (server !! "url") → server !! "db" = None →
   connect server s = (s, Raised (KeyError "db"))) ∧
  (is_Some (server !! "url") → is_Some (server !! "db") →
   server !! "username" = None →
   connect server s = (s, Raised (KeyError "username"))) ∧
  (is_Some (server !! "url") → is_Some (server !! "db") →
   is_Some (server !! "username") → server !! "password" = None →
   connect server s = (s, Raised (KeyError "password"))) ∧
  (∀ url db username password,
     server !! "url" = Some url → server !! "db" = Some db →
     server !! "username" = Some username →
     server !! "password" = Some password →
     connect server s = __init__ url db username password s).
Proof.
  unfold connect, getitem, bind, ret, raise.
  repeat split.
  - by intros ->.
  - by intros [? ->] ->.
  - by intros [? ->] [? ->] ->.
  - by intros [? ->] [? ->] [? ->] ->.
  - by intros url db username password -> -> -> ->.
Qed.

(** X13: when the client of the first server cannot be built, both
    workflows stop there: they log one line naming the error, raise the
    same exception, and make no call beyond those of the failed
    construction, so the second server is never contacted. *)
Theorem source_connection_failure_stops_both_workflows
    (server1 server2 : gmap string string) (model : string)
    (fields : option (list string)) (domain : option (list (list value)))
    (s s1 : state W) (e : exn) :
  connect server1 s = (s1, Raised e) →
  migrate_data_between_servers server1 server2 model fields domain s =
    (State (world s1) (calls s1)
       (logged s1 ++
        [("Error migrating data between servers: " ++ exn_str e)%string]),
     Raised e) ∧
  compare_models_between_servers server1 server2 model s =
    (State (world s1) (calls s1)
       (logged s1 ++
        [("Error comparing models between servers: " ++ exn_str e)%string]),
     Raised e).
Proof.
  intros Hc. split.
  - unfold migrate_data_between_servers, try_except. unfold bind at 1.
    by rewrite Hc.
  - unfold compare_models_between_servers, try_except. unfold bind at 1.
    by rewrite Hc.
Qed.
End Construction.

Lemma constructor_returns_authenticated_client_witness :
  __init__ "src" "prod" "admin" "secret" Demo.start =
    (State 0
       [call_authenticate "src/xmlrpc/2/common" "prod" "admin" "secret"] [],
     Ok Demo.src_client).
Proof.
  apply (constructor_returns_authenticated_client "src" "prod" "admin"
           "secret" Demo.start 0 (VInt 2));
    reflexivity.
Defined.

Lemma login_fault_is_logged_and_raised_witness :
  authenticate
    (Client "host" "prod" "down" "secret" "host/xmlrpc/2/common"
       "host/xmlrpc/2/object" VNone)
    Flaky.start
  = (State tt
       [call_authenticate "host/xmlrpc/2/common" "prod" "down" "secret"]
       ["Authentication error: connection refused"],
     Raised Flaky.refused).
Proof.
  refine (proj1 (login_fault_is_logged_and_raised "host" "prod" "down"
                   "secret" Flaky.start tt Flaky.refused _)).
  reflexivity.
Defined.

Lemma refused_proxy_makes_no_call_witness :
  __init__ "ftp://host" "prod" "admin" "secret" Demo.start
  = (Demo.start, Raised (Exception "unsupported XML-RPC protocol")).
Proof.
  apply (proj1 (refused_proxy_makes_no_call "ftp://host" "prod" "admin"
                  "secret" Demo.start
                  (Exception "unsupported XML-RPC protocol"))).
  reflexivity.
Defined.

Lemma missing_connection_key_raises_KeyError_witness :
  connect {[ "url" := "src"; "db" := "prod" ]} Demo.start
  = (Demo.start, Raised (KeyError "username")).
Proof.
  apply (proj1 (proj2 (proj2 (missing_connection_key_raises_KeyError
                                {[ "url" := "src"; "db" := "prod" ]}
                                Demo.start)))).
  - by exists "src".
  - by exists "prod".
  - reflexivity.
Defined.

Lemma source_connection_failure_stops_both_workflows_witness :
  migrate_data_between_servers (Demo.server "src" "guest") Demo.dst "crm.tag"
    None None Demo.start =
    (State 0 [call_authenticate "src/xmlrpc/2/common" "prod" "guest" "secret"]
       ["Authentication error: Authentication failed: Please check your credentials.";
        "Error migrating data between servers: Authentication failed: Please check your credentials."],
     Raised authentication_failed) ∧
  compare_models_between_servers (Demo.server "src" "guest") Demo.dst
    "crm.tag" Demo.start =
    (State 0 [call_authenticate "src/xmlrpc/2/common" "prod" "guest" "secret"]
       ["Authentication error: Authentication failed: Please check your credentials.";
        "Error comparing models between servers: Authentication failed: Please check your credentials."],
     Raised authentication_failed).
Proof.
  apply (source_connection_failure_stops_both_workflows
           (Demo.server "src" "guest") Demo.dst "crm.tag" None None Demo.start
           (State 0
              [call_authenticate "src/xmlrpc/2/common" "prod" "guest" "secret"]
              ["Authentication error: Authentication failed: Please check your credentials."])
           authentication_failed).
  vm_compute. reflexivity.
Defined.

(** ** Further properties of the create loop *)

Lemma created_app (rs1 rs2 : list (outcome value)) :
  created (rs1 ++ rs2) = created rs1 ++ created rs2.
Proof. apply omap_app. Qed.

Lemma create_failures_app model (rs1 rs2 : list (outcome value)) :
  create_failures model (rs1 ++ rs2)
  = create_failures model rs1 ++ create_failures model rs2.
Proof. apply omap_app. Qed.

Lemma created_failed_length model (rs : list (outcome value)) :
  length (created rs) + length (create_failures model rs) = length rs.
Proof.
  induction rs as [| [id | e] rs IH]; simpl; [done | |];
    unfold created, create_failures in *; simpl; lia.
Qed.

Section CreateLoopMore.
Context {W : Type} `{!Transport W}.

Lemma create_attempts_app self model data1 data2 (w : W) :
  create_attempts self model (data1 ++ data2) w =
    let '(rs1, w1) := create_attempts self model data1 w in
    let '(rs2, w2) := create_attempts self model data2 w1 in
    (rs1 ++ rs2, w2).
Proof.
  revert w. induction data1 as [| record rest IH]; intros w; simpl.
  - by destruct (create_attempts self model data2 w).
  - destruct (remote_create _ _ _ _ _ _ _) as [w1 r]. rewrite IH.
    destruct (create_attempts self model rest w1) as [rs1 w2].
    by destruct (create_attempts self model data2 w2).
Qed.

(** X14: creating a list of records in one call is the same as creating
    a first part and then the rest: same calls, same final state, same
    log, and the identifiers of the two parts one after the other. *)
Theorem create_data_on_model_app
    (self : OdooClient) (model : string)
    (data1 data2 : list (gmap string value)) (s : state W) :
  create_data_on_model self model (data1 ++ data2) s =
    (do ids1 <- create_data_on_model self model data1;;
     do ids2 <- create_data_on_model self model data2;;
     ret (ids1 ++ ids2)) s.
Proof.
  unfold bind at 1. rewrite (create_data_on_model_run self model data1 s).
  rewrite (create_data_on_model_run self model (data1 ++ data2) s).
  rewrite create_attempts_app.
  destruct (create_attempts self model data1 (world s)) as [rs1 w1].
  unfold bind. rewrite create_data_on_model_run. simpl.
  destruct (create_attempts self model data2 w1) as [rs2 w2].
  unfold ret, create_calls.
  by rewrite created_app, create_failures_app, map_app, !app_assoc.
Qed.

(** X15: [create_data_on_model] accounts for every record: it returns a
    list, and the identifiers returned plus the lines it logged are as
    many as the records given; so it returns at most one identifier per
    record, and one per record exactly when it logged nothing. *)
Theorem created_plus_failed_is_attempted
    (self : OdooClient) (model : string) (data : list (gmap string value))
    (s : state W) :
  ∃ s' ids,
    create_data_on_model self model data s = (s', Ok ids) ∧
    (length ids + length (logged s') = length data + length (logged s))%nat ∧
    (length ids ≤ length data)%nat ∧
    (length ids = length data ↔ logged s' = logged s).
Proof.
  rewrite create_data_on_model_run.
  pose proof (create_attempts_length self model data (world s)) as Hlen.
  destruct (create_attempts self model data (world s)) as [rs w].
  simpl in Hlen. eexists _, _. split; [done |]. simpl.
  pose proof (created_failed_length model rs) as Hsum.
  rewrite length_app. repeat split; try lia.
  - intros Hall.
    assert (length (create_failures model rs) = 0) as Hnil by lia.
    apply nil_length_inv in Hnil. by rewrite Hnil, app_nil_r.
  - intros Hlog.
    assert (length (logged s ++ create_failures model rs)
            = length (logged s)) as Hl by congruence.
    rewrite length_app in Hl. lia.
Qed.
End CreateLoopMore.

(** ** Further properties of the workflows *)

Section Quiet.
Context {W : Type}.

Lemma quiet_ret {A} (a : A) : quiet (W:=W) (ret a).
Proof. by intros s s' a' [= <- _]. Qed.

Lemma quiet_raise {A} (e : exn) : quiet (W:=W) (A:=A) (raise e).
Proof. by intros s s' a. Qed.

Lemma quiet_remote {A} (c : rpc_call) (h : W → W * outcome A) :
  quiet (remote c h).
Proof.
  intros s s' a. unfold remote. destruct (h (world s)) as [w r].
  by intros [= <- _].
Qed.

Lemma quiet_bind {A B} (m : M W A) (k : A → M W B) :
  quiet m → (∀ a, quiet (k a)) → quiet (bind m k).
Proof.
  intros Hm Hk s s' b. unfold bind.
  destruct (m s) as [s1 [a | e]] eqn:Em; [| done].
  intros Hrun. rewrite (Hk a _ _ _ Hrun). by eapply Hm.
Qed.

(** A handler that logs and raises again never returns, so the whole
    [try] returns only when its body does. *)
Lemma quiet_try_reraise {A} (m : M W A) (line : string) :
  quiet m →
  quiet (try_except m
           (λ e, exec logger_error (line ++ exn_str e);; raise e)).
Proof.
  intros Hm s s' a. unfold try_except.
  destruct (m s) as [s1 [a1 | e]] eqn:Em; [| done].
  intros [= <- _]. by eapply Hm.
Qed.

Lemma quiet_getitem (d : gmap string string) (key : string) :
  quiet (W:=W) (getitem d key).
Proof.
  unfold getitem. destruct (d !! key); [apply quiet_ret | apply quiet_raise].
Qed.

Lemma quiet_lift {A} (r : outcome A) : quiet (W:=W) (lift r).
Proof. destruct r; [apply quiet_ret | apply quiet_raise]. Qed.
End Quiet.

Section WorkflowsMore.
Context {W : Type} `{!Transport W}.

Lemma quiet_authenticate self : quiet (authenticate self).
Proof.
  unfold authenticate. apply quiet_try_reraise, quiet_bind.
  - apply quiet_remote.
  - intros v. destruct (negb (truthy v)); [apply quiet_raise | apply quiet_ret].
Qed.

Lemma quiet_init url db username password :
  quiet (__init__ url db username password).
Proof.
  unfold __init__, ServerProxy.
  repeat (apply quiet_bind; [| intros ?]);
    first [ apply quiet_authenticate
          | apply quiet_ret
          | destruct (proxy_error _); [apply quiet_raise | apply quiet_ret] ].
Qed.

Lemma quiet_connect server : quiet (connect server).
Proof.
  unfold connect.
  repeat (apply quiet_bind; [apply quiet_getitem | intros ?]).
  apply quiet_init.
Qed.

Lemma quiet_get_filtered_fields self model exclude_types :
  quiet (get_filtered_fields self model exclude_types).
Proof.
  unfold get_filtered_fields, fields_get.
  apply quiet_try_reraise, quiet_bind; [apply quiet_remote | intros ?].
  apply quiet_bind; [apply quiet_lift | intros ?; apply quiet_ret].
Qed.

Lemma quiet_get_fields_from_model self model :
  quiet (get_fields_from_model self model).
Proof.
  unfold get_fields_from_model, fields_get.
  apply quiet_try_reraise, quiet_bind; [apply quiet_remote | intros ?].
  apply quiet_ret.
Qed.

Lemma quiet_get_data_from_model self model fields domain :
  quiet (get_data_from_model self model fields domain).
Proof.
  unfold get_data_from_model. apply quiet_bind.
  - destruct fields as [[| f fs] |];
      first [apply quiet_ret | apply quiet_get_filtered_fields].
  - intros fs. apply quiet_try_reraise, quiet_bind;
      [apply quiet_remote | intros ?; apply quiet_ret].
Qed.

Lemma quiet_compare_models_between_servers server1 server2 model :
  quiet (compare_models_between_servers server1 server2 model).
Proof.
  unfold compare_models_between_servers. apply quiet_try_reraise.
  repeat lazymatch goal with
         | |- quiet (bind _ _) => apply quiet_bind; [| intros ?]
         | |- quiet (connect _) => apply quiet_connect
         | |- quiet (get_filtered_fields _ _ _) =>
             apply quiet_get_filtered_fields
         | |- quiet (ret _) => apply quiet_ret
         end.
Qed.

(** X16: a call that returns has logged nothing: this holds for the
    constructor, for the three reading methods of a client and for the
    comparison of two servers.  A new line in the log always comes with an
    exception or with a refused create. *)
Theorem returning_calls_log_nothing
    (server1 server2 : gmap string string) (self : OdooClient)
    (model : string) (exclude_types fields : option (list string))
    (domain : option (list (list value))) :
  quiet (W:=W) (connect server1) ∧
  quiet (W:=W) (get_filtered_fields self model exclude_types) ∧
  quiet (W:=W) (get_fields_from_model self model) ∧
  quiet (W:=W) (get_data_from_model self model fields domain) ∧
  quiet (W:=W) (compare_models_between_servers server1 server2 model).
Proof.
  repeat split.
  - apply quiet_connect.
  - apply quiet_get_filtered_fields.
  - apply quiet_get_fields_from_model.
  - apply quiet_get_data_from_model.
  - apply quiet_compare_models_between_servers.
Qed.

Lemma introspective_authenticate self :
  emits introspective (authenticate self).
Proof.
  unfold authenticate. repeat emits_step.
  - by apply emits_remote.
  - destruct (negb (truthy a)); auto with emits.
Qed.

Lemma introspective_connect server : emits introspective (connect server).
Proof.
  unfold connect, __init__. repeat emits_step.
  apply introspective_authenticate.
Qed.

Lemma introspective_get_filtered_fields self model exclude_types :
  emits introspective (get_filtered_fields self model exclude_types).
Proof.
  unfold get_filtered_fields, fields_get. repeat emits_step.
  by apply emits_remote.
Qed.

(** X17: comparing two servers only looks at them: whatever the servers
    answer and whether the comparison returns or raises, every call it
    makes is a login or a schema introspection, never a read of records
    and never a create. *)
Theorem comparison_is_read_only
    (server1 server2 : gmap string string) (model : string) (s : state W) :
  ∃ t,
    calls (compare_models_between_servers server1 server2 model s).1
      = calls s ++ t ∧
    Forall (λ c, is_introspection c = true) t.
Proof.
  revert s. change (emits introspective
                      (compare_models_between_servers server1 server2 model)).
  unfold compare_models_between_servers. repeat emits_step;
    first [ apply introspective_connect
          | apply introspective_get_filtered_fields ].
Qed.
End WorkflowsMore.

Lemma returning_calls_log_nothing_witness :
  logged Demo.connected = logged Demo.start.
Proof.
  apply (proj1 (returning_calls_log_nothing Demo.src Demo.dst Demo.src_client
                  "crm.tag" None None None) Demo.start Demo.connected
           Demo.src_client).
  vm_compute. reflexivity.
Defined.

Section MigrationMore.
Context {W : Type} `{!Transport W}.

(** When a bind raises, its calls are those of the part that ran. *)
Lemma bind_raised_calls {A B} (P : rpc_call → Prop)
    (m : M W A) (k : A → M W B) :
  emits P m →
  (∀ a s s' e, k a s = (s', Raised e) →
     ∃ t, calls s' = calls s ++ t ∧ Forall P t) →
  ∀ s s' e, bind m k s = (s', Raised e) →
    ∃ t, calls s' = calls s ++ t ∧ Forall P t.
Proof.
  intros Hm Hk s s' e. unfold bind.
  destruct (Hm s) as (t & Et & Ft).
  destruct (m s) as [s1 [a | e1]]; simpl in Et.
  - intros Hrun. destruct (Hk _ _ _ _ Hrun) as (t' & Et' & Ft').
    exists (t ++ t'). rewrite Et', Et, app_assoc.
    split; [done | by apply Forall_app].
  - intros [= <- _]. eauto.
Qed.

(** X18: a migration that raises has created nothing: none of the calls
    it made is a create, and the last line of the log names the
    exception raised. *)
Theorem failed_migration_creates_nothing
    (server1 server2 : gmap string string) (model : string)
    (fields : option (list string)) (domain : option (list (list value)))
    (s s' : state W) (e : exn) :
  migrate_data_between_servers server1 server2 model fields domain s
    = (s', Raised e) →
  (∃ t, calls s' = calls s ++ t ∧ Forall no_create t) ∧
  ∃ lines,
    logged s' =
      lines ++
      [("Error migrating data between servers: " ++ exn_str e)%string].
Proof.
  unfold migrate_data_between_servers, try_except.
  match goal with
  | |- context [match ?body s with _ => _ end] =>
      destruct (body s) as [s0 [ids | e0]] eqn:Hbody
  end; [done |].
  unfold bind at 1, logger_error, raise. intros [= <- <-]. simpl.
  split; [| eauto].
  revert Hbody. apply bind_raised_calls; [apply emits_connect |].
  intros client1. apply bind_raised_calls.
  { eapply emits_weaken; [| apply emits_get_data_from_model].
    by intros c [_ ?]. }
  intros data. apply bind_raised_calls; [apply emits_connect |].
  intros client2.
  apply bind_raised_calls; [apply emits_compare_models_between_servers |].
  intros cmp s1 s2 e1 Hcreate.
  destruct (create_data_on_model_returns client2 model
              (map (project_record (common_fields cmp)) data) s1)
    as (s3 & ids & Hok).
  congruence.
Qed.

(** X19: a migration whose stages before the create loop succeed returns
    a list, and accounts for every record read: the identifiers returned
    plus the lines logged during the whole migration are as many as the
    records read from the source. *)
Theorem migration_accounts_for_every_record
    (server1 server2 : gmap string string) (model : string)
    (fields : option (list string)) (domain : option (list (list value)))
    (s s1 s2 s3 s4 : state W) (client1 client2 : OdooClient)
    (data : list (gmap string value)) (cmp : comparison) :
  connect server1 s = (s1, Ok client1) →
  get_data_from_model client1 model fields domain s1 = (s2, Ok data) →
  connect server2 s2 = (s3, Ok client2) →
  compare_models_between_servers server1 server2 model s3 = (s4, Ok cmp) →
  ∃ s' ids,
    migrate_data_between_servers server1 server2 model fields domain s
      = (s', Ok ids) ∧
    (length ids + length (logged s') = length data + length (logged s))%nat.
Proof.
  intros Hc1 Hr Hc2 Hcmp.
  rewrite (migrate_staged _ _ _ _ _ _ _ _ _ _ _ _ _ _ Hc1 Hr Hc2 Hcmp).
  rewrite create_data_on_model_run.
  pose proof (create_attempts_length client2 model
                (map (project_record (common_fields cmp)) data) (world s4))
    as Hlen.
  destruct (create_attempts _ _ _ _) as [rs w]. simpl in Hlen.
  eexists _, _. split; [done |]. simpl.
  rewrite (quiet_compare_models_between_servers _ _ _ _ _ _ Hcmp),
    (quiet_connect _ _ _ _ Hc2), (quiet_get_data_from_model _ _ _ _ _ _ _ Hr),
    (quiet_connect _ _ _ _ Hc1).
  pose proof (created_failed_length model rs) as Hsum.
  rewrite length_app, length_map in *. lia.
Qed.
End MigrationMore.

Lemma failed_migration_creates_nothing_witness :
  (∃ t,
     calls
       (State 0
          [call_authenticate "src/xmlrpc/2/common" "prod" "guest" "secret"]
          ["Authentication error: Authentication failed: Please check your credentials.";
           "Error migrating data between servers: Authentication failed: Please check your credentials."])
     = calls Demo.start ++ t ∧ Forall no_create t) ∧
  ∃ lines,
    ["Authentication error: Authentication failed: Please check your credentials.";
     "Error migrating data between servers: Authentication failed: Please check your credentials."]
    = lines ++
      [("Error migrating data between servers: "
          ++ exn_str authentication_failed)%string].
Proof.
  apply (failed_migration_creates_nothing (Demo.server "src" "guest") Demo.dst
           "crm.tag" None None Demo.start
           (State 0
              [call_authenticate "src/xmlrpc/2/common" "prod" "guest" "secret"]
              ["Authentication error: Authentication failed: Please check your credentials.";
               "Error migrating data between servers: Authentication failed: Please check your credentials."])
           authentication_failed).
  vm_compute. reflexivity.
Defined.

Lemma migration_accounts_for_every_record_witness :
  ∃ s' ids,
    migrate_data_between_servers Demo.src Demo.dst "crm.tag" None None
      Demo.start = (s', Ok ids) ∧
    (length ids + length (logged s')
     = length (Demo.src_rows "crm.tag") + length (logged Demo.start))%nat.
Proof.
  apply (migration_accounts_for_every_record Demo.src Demo.dst "crm.tag"
           None None Demo.start Demo.connected (Demo.read "crm.tag")
           (Demo.reconnected "crm.tag") (Demo.compared "crm.tag")
           Demo.src_client Demo.dst_client (Demo.src_rows "crm.tag")
           Demo.cmp);
    vm_compute; reflexivity.
Defined.

(** ** Further properties of the reads and of the comparison of servers *)

Lemma elem_of_kept_iff (info : fields_info) (types : list string) (k : string) :
  NoDup info.*1 →
  k ∈ (filter (λ item, ¬ has_type_in types item) info).*1 ↔
  k ∈ info.*1 ∧ k ∉ fields_of_type_in info types.
Proof.
  intros Hnd.
  rewrite elem_of_kept, elem_of_fields_of_type_in, list_elem_of_fmap. split.
  - intros (v & Hin & Hno). split; [by exists (k, v) |].
    intros (v' & Hin' & Hyes).
    rewrite (NoDup_fst_item _ _ _ _ Hnd Hin Hin') in Hno. congruence.
  - intros [([k' v] & -> & Hin) Hout]. simpl in *. exists v. split; [done |].
    destruct (has_type_in types (k', v)) eqn:Eh; [| done].
    exfalso. apply Hout. eauto.
Qed.

Section Reads.
Context {W : Type} `{!Transport W}.

(** X20: the common fields a comparison of two servers answers are
    exactly the names that are fields of the model on both servers and
    relational on neither. *)
Theorem common_fields_are_scalar_fields_of_both
    (server1 server2 : gmap string string) (model : string)
    (s s1 s3 : state W) (client1 client2 : OdooClient) (w1 w2 : W)
    (info1 info2 : fields_info) :
  connect server1 s = (s1, Ok client1) →
  schema_answer client1 model s1 = (w1, Ok info1) →
  connect server2 (after_fields_get client1 model s1 w1) = (s3, Ok client2) →
  schema_answer client2 model s3 = (w2, Ok info2) →
  Forall typed info1 → Forall typed info2 →
  NoDup info1.*1 → NoDup info2.*1 →
  ∃ cmp,
    compare_models_between_servers server1 server2 model s
      = (after_fields_get client2 model s3 w2, Ok cmp) ∧
    ∀ k, k ∈ common_fields cmp ↔
      (k ∈ info1.*1 ∧ k ∉ fields_of_type_in info1 relational_types) ∧
      (k ∈ info2.*1 ∧ k ∉ fields_of_type_in info2 relational_types).
Proof.
  intros Hc1 Ha1 Hc2 Ha2 Hty1 Hty2 Hnd1 Hnd2.
  destruct (get_filtered_fields_returns client1 model None s1 w1 info1
              Ha1 Hty1) as [f1 Hf1].
  destruct (get_filtered_fields_returns client2 model None s3 w2 info2
              Ha2 Hty2) as [f2 Hf2].
  exists (compare_field_lists f1 f2). split.
  - unfold compare_models_between_servers, try_except.
    unfold bind at 1. rewrite Hc1. unfold bind at 1. rewrite Hf1.
    unfold bind at 1. rewrite Hc2. unfold bind at 1. by rewrite Hf2.
  - intros k. simpl.
    rewrite elem_of_elements, elem_of_intersection, !elem_of_list_to_set.
    rewrite (get_filtered_fields_Ok _ _ _ _ _ _ _ _ Ha1 Hf1),
      (get_filtered_fields_Ok _ _ _ _ _ _ _ _ Ha2 Hf2). simpl.
    rewrite !elem_of_kept_iff by done.
    by rewrite !(fields_of_type_in_ext _ _ _ relational_types_default).
Qed.

(** X21: with a non-empty [fields] list [get_data_from_model] makes one
    call and one only, the [search_read], with the fields as they were
    given and the domain given or [[]]: there is no introspection, and the
    requested fields are not filtered. *)
Theorem explicit_fields_skip_introspection
    (self : OdooClient) (model : string) (f : string) (fs : list string)
    (domain : option (list (list value))) (s : state W) :
  ∃ s' r,
    get_data_from_model self model (Some (f :: fs)) domain s = (s', r) ∧
    calls s' =
      calls s ++
      [call_search_read (models self) (db self) (uid self) (password self)
         model (or_default domain []) (f :: fs)].
Proof.
  unfold get_data_from_model, try_except, bind, ret, remote. simpl.
  destruct (remote_search_read _ _ _ _ _ _ _ _) as [w [data | e]];
    by eexists _, _.
Qed.

(** X22: without [fields], or with an empty list, [get_data_from_model]
    first asks for the schema and then reads exactly the fields that
    [get_filtered_fields] keeps by default: two calls, and no relational
    field among the fields read. *)
Theorem default_fields_read_only_filtered_fields
    (self : OdooClient) (model : string) (fields : option (list string))
    (domain : option (list (list value))) (s : state W) (w : W)
    (info : fields_info) :
  fields = None ∨ fields = Some [] →
  schema_answer self model s = (w, Ok info) →
  Forall typed info →
  NoDup info.*1 →
  ∃ s' r read,
    get_data_from_model self model fields domain s = (s', r) ∧
    calls s' =
      calls s ++
      [call_fields_get (models self) (db self) (uid self) (password self)
         model;
       call_search_read (models self) (db self) (uid self) (password self)
         model (or_default domain []) read] ∧
    ∀ k, k ∈ read ↔
      k ∈ info.*1 ∧ k ∉ fields_of_type_in info relational_types.
Proof.
  intros Hfields Hans Hty Hnd.
  destruct (get_filtered_fields_returns self model None s w info Hans Hty)
    as [read Hread].
  assert (get_data_from_model self model fields domain s =
          try_except
            (do data <- remote
                 (call_search_read (models self) (db self) (uid self)
                    (password self) model (or_default domain []) read)
                 (remote_search_read (models self) (db self) (uid self)
                    (password self) model (or_default domain []) read);;
             ret data)
            (λ e, exec logger_error
                         ("Error getting data from model: " ++ exn_str e);;
                  raise e)
            (after_fields_get self model s w)) as ->.
  { unfold get_data_from_model. unfold bind at 1.
    destruct Hfields as [-> | ->]; by rewrite Hread. }
  exists (try_except
            (do data <- remote
                 (call_search_read (models self) (db self) (uid self)
                    (password self) model (or_default domain []) read)
                 (remote_search_read (models self) (db self) (uid self)
                    (password self) model (or_default domain []) read);;
             ret data)
            (λ e, exec logger_error
                         ("Error getting data from model: " ++ exn_str e);;
                  raise e)
            (after_fields_get self model s w)).1.
  eexists _, read. split; [apply surjective_pairing |]. split.
  - unfold try_except, bind, ret, remote. simpl.
    destruct (remote_search_read _ _ _ _ _ _ _ _) as [w' [data | e]]; simpl;
      by rewrite <- app_assoc.
  - intros k.
    rewrite (get_filtered_fields_Ok _ _ _ _ _ _ _ _ Hans Hread). simpl.
    rewrite elem_of_kept_iff by done.
    by rewrite (fields_of_type_in_ext _ _ _ relational_types_default).
Qed.

(** X23: when the default field list cannot be obtained, because the
    [fields_get] call fails or a field has no [type], [get_data_from_model]
    raises that error without reading any record: one call has been made,
    and the line logged is the one of [get_filtered_fields], the failure
    being outside the [try] of [get_data_from_model]. *)
Theorem failed_introspection_prevents_read
    (self : OdooClient) (model : string) (fields : option (list string))
    (domain : option (list (list value))) (s s' : state W) (e : exn) :
  fields = None ∨ fields = Some [] →
  get_filtered_fields self model None s = (s', Raised e) →
  get_data_from_model self model fields domain s = (s', Raised e) ∧
  calls s' =
    calls s ++
    [call_fields_get (models self) (db self) (uid self) (password self)
       model] ∧
  logged s' =
    logged s ++ [("Error getting filtered fields: " ++ exn_str e)%string].
Proof.
  intros Hfields Hraise. split.
  - unfold get_data_from_model. unfold bind at 1.
    destruct Hfields as [-> | ->]; by rewrite Hraise.
  - revert Hraise.
    unfold get_filtered_fields, fields_get, try_except, bind, remote.
    destruct (remote_fields_get _ _ _ _ _ _) as [w [info | e0]]; simpl.
    + destruct (filter_fields info _) as [l | e1]; simpl; [done |].
      by intros [= <- <-].
    + by intros [= <- <-].
Qed.
End Reads.

Lemma common_fields_are_scalar_fields_of_both_witness :
  ∃ cmp,
    compare_models_between_servers Demo.src Demo.dst "crm.tag" Demo.start
      = (after_fields_get Demo.dst_client "crm.tag"
           (connect Demo.dst
              (after_fields_get Demo.src_client "crm.tag" Demo.connected 0)).1
           0,
         Ok cmp) ∧
    ∀ k, k ∈ common_fields cmp ↔
      (k ∈ Demo.src_fields.*1
       ∧ k ∉ fields_of_type_in Demo.src_fields relational_types) ∧
      (k ∈ Demo.dst_fields.*1
       ∧ k ∉ fields_of_type_in Demo.dst_fields relational_types).
Proof.
  apply (common_fields_are_scalar_fields_of_both Demo.src Demo.dst "crm.tag"
           Demo.start Demo.connected
           (connect Demo.dst
              (after_fields_get Demo.src_client "crm.tag" Demo.connected 0)).1
           Demo.src_client Demo.dst_client 0 0 Demo.src_fields
           Demo.dst_fields);
    first [ by vm_compute
          | apply (bool_decide_unpack _); vm_compute; exact I ].
Defined.

Lemma default_fields_read_only_filtered_fields_witness :
  ∃ s' r read,
    get_data_from_model Demo.src_client "crm.tag" None None Demo.start
      = (s', r) ∧
    calls s' =
      calls Demo.start ++
      [call_fields_get "src/xmlrpc/2/object" "prod" (VInt 2) "secret"
         "crm.tag";
       call_search_read "src/xmlrpc/2/object" "prod" (VInt 2) "secret"
         "crm.tag" [] read] ∧
    ∀ k, k ∈ read ↔
      k ∈ Demo.src_fields.*1
      ∧ k ∉ fields_of_type_in Demo.src_fields relational_types.
Proof.
  apply (default_fields_read_only_filtered_fields Demo.src_client "crm.tag"
           None None Demo.start 0 Demo.src_fields).
  - by left.
  - reflexivity.
  - apply (bool_decide_unpack _). vm_compute. exact I.
  - apply (bool_decide_unpack _). vm_compute. exact I.
Defined.

Lemma failed_introspection_prevents_read_witness :
  let s' :=
    State tt
      [call_fields_get "host/xmlrpc/2/object" "prod" (VInt 7) "secret" "down"]
      ["Error getting filtered fields: connection refused"] in
  get_data_from_model Flaky.client "down" None None Flaky.start
    = (s', Raised Flaky.refused) ∧
  calls s' =
    calls Flaky.start ++
    [call_fields_get "host/xmlrpc/2/object" "prod" (VInt 7) "secret" "down"] ∧
  logged s' =
    logged Flaky.start ++
    [("Error getting filtered fields: " ++ exn_str Flaky.refused)%string].
Proof.
  apply (failed_introspection_prevents_read Flaky.client "down" None None
           Flaky.start
           (State tt
              [call_fields_get "host/xmlrpc/2/object" "prod" (VInt 7) "secret"
                 "down"]
              ["Error getting filtered fields: connection refused"])
           Flaky.refused).
  - by left.
  - reflexivity.
Defined.

(** ** The logins of a migration *)

Lemma reader_calls_are_no_login (self : OdooClient) (t : list rpc_call) :
  Forall (as_reader self) t → filter (λ c, is_authenticate c) t = [].
Proof.
  induction 1 as [| c t [Hc _] _ IH]; [done |].
  rewrite filter_cons_False; [done |].
  destruct c; simpl; [discriminate Hc | tauto..].
Qed.

Section Logins.
Context {W : Type} `{!Transport W}.

Lemma init_Ok_calls url db username password (s s' : state W) client :
  __init__ url db username password s = (s', Ok client) →
  calls s' =
    calls s ++
    [call_authenticate (url ++ "/xmlrpc/2/common") db username password].
Proof.
  unfold __init__, ServerProxy. unfold bind at 1.
  destruct (proxy_error (url ++ "/xmlrpc/2/common")); [done |].
  unfold ret at 1. unfold bind at 1.
  destruct (proxy_error (url ++ "/xmlrpc/2/object")); [done |].
  unfold ret at 1. unfold bind at 1. rewrite authenticate_run. simpl.
  destruct (remote_authenticate _ _ _ _ _) as [w [v | e]]; [| done].
  destruct (truthy v); [| done].
  unfold ret. by intros [= <- _].
Qed.

(** A client built from a connection dict: its values are those of the
    dict, its construction made the login call and no other. *)
Lemma connect_Ok server (s s' : state W) client :
  connect server s = (s', Ok client) →
  server !! "url" = Some (url client) ∧
  server !! "db" = Some (db client) ∧
  server !! "username" = Some (username client) ∧
  server !! "password" = Some (password client) ∧
  common client = (url client ++ "/xmlrpc/2/common")%string ∧
  calls s' = calls s ++ [login_call client].
Proof.
  unfold connect, getitem, bind, ret, raise.
  destruct (server !! "url") as [u |]; [| done].
  destruct (server !! "db") as [d |]; [| done].
  destruct (server !! "username") as [n |]; [| done].
  destruct (server !! "password") as [p |]; [| done].
  intros Hinit.
  pose proof (init_Ok_calls _ _ _ _ _ _ _ Hinit) as Hcalls.
  apply init_Ok in Hinit as (_ & _ & ->). by simpl.
Qed.

Lemma get_filtered_fields_Ok_calls self model exclude_types
    (s s' : state W) l :
  get_filtered_fields self model exclude_types s = (s', Ok l) →
  calls s' =
    calls s ++
    [call_fields_get (models self) (db self) (uid self) (password self)
       model].
Proof.
  unfold get_filtered_fields, fields_get, try_except, bind, remote.
  destruct (remote_fields_get _ _ _ _ _ _) as [w [info | e]]; [| done].
  simpl. destruct (filter_fields info _); [| done]. by intros [= <- _].
Qed.

(** The stages of a comparison that returns. *)
Lemma compare_Ok_inv server1 server2 model (s s' : state W) cmp :
  compare_models_between_servers server1 server2 model s = (s', Ok cmp) →
  ∃ s1 client1 s2 fields1 s3 client2 fields2,
    connect server1 s = (s1, Ok client1) ∧
    get_filtered_fields client1 model None s1 = (s2, Ok fields1) ∧
    connect server2 s2 = (s3, Ok client2) ∧
    get_filtered_fields client2 model None s3 = (s', Ok fields2) ∧
    cmp = compare_field_lists fields1 fields2.
Proof.
  unfold compare_models_between_servers, try_except.
  unfold bind at 1.
  destruct (connect server1 s) as [s1 [client1 | e]] eqn:Hc1; [| done].
  unfold bind at 1.
  destruct (get_filtered_fields client1 model None s1)
    as [s2 [fields1 | e]] eqn:Hf1; [| done].
  unfold bind at 1.
  destruct (connect server2 s2) as [s3 [client2 | e]] eqn:Hc2; [| done].
  unfold bind at 1.
  destruct (get_filtered_fields client2 model None s3)
    as [s4 [fields2 | e]] eqn:Hf2; [| done].
  unfold ret. intros [= <- <-]. by eexists _, _, _, _, _, _, _.
Qed.

(** X24: a migration that reaches its create loop has logged in four
    times, in this order: on the first server, on the second, and once
    more on each, because the comparison builds clients of its own. *)
Theorem migration_logs_in_four_times
    (server1 server2 : gmap string string) (model : string)
    (fields : option (list string)) (domain : option (list (list value)))
    (s s1 s2 s3 s4 : state W) (client1 client2 : OdooClient)
    (data : list (gmap string value)) (cmp : comparison) :
  connect server1 s = (s1, Ok client1) →
  get_data_from_model client1 model fields domain s1 = (s2, Ok data) →
  connect server2 s2 = (s3, Ok client2) →
  compare_models_between_servers server1 server2 model s3 = (s4, Ok cmp) →
  ∃ t,
    calls s4 = calls s ++ t ∧
    filter (λ c, is_authenticate c) t =
      [login_call client1; login_call client2;
       login_call client1; login_call client2].
Proof.
  intros Hc1 Hr Hc2 Hcmp.
  apply compare_Ok_inv in Hcmp
    as (sa & c1 & sb & f1 & sc & c2 & f2 & Ha & Hb & Hc & Hd & _).
  destruct (emits_run _ _ _ _ _
              (emits_get_data_from_model client1 model fields domain) Hr)
    as (t2 & E2 & F2).
  apply connect_Ok in Hc1 as (Hu1 & Hd1 & Hn1 & Hp1 & Hm1 & E1).
  apply connect_Ok in Hc2 as (Hu2 & Hd2 & Hn2 & Hp2 & Hm2 & E3).
  apply connect_Ok in Ha as (Hu1' & Hd1' & Hn1' & Hp1' & Hm1' & Ea).
  apply connect_Ok in Hc as (Hu2' & Hd2' & Hn2' & Hp2' & Hm2' & Ec).
  apply get_filtered_fields_Ok_calls in Hb, Hd.
  assert (login_call c1 = login_call client1) as Hl1.
  { unfold login_call. rewrite Hm1, Hm1'. congruence. }
  assert (login_call c2 = login_call client2) as Hl2.
  { unfold login_call. rewrite Hm2, Hm2'. congruence. }
  exists ([login_call client1] ++ t2 ++ [login_call client2] ++
          [login_call client1;
           call_fields_get (models c1) (db c1) (uid c1) (password c1) model;
           login_call client2;
           call_fields_get (models c2) (db c2) (uid c2) (password c2) model]).
  split.
  - rewrite Hd, Ec, Hb, Ea, E3, E2, E1, Hl1, Hl2.
    by rewrite <- !app_assoc.
  - rewrite !filter_app, (reader_calls_are_no_login _ _ F2). reflexivity.
Qed.
End Logins.

Lemma migration_logs_in_four_times_witness :
  ∃ t,
    calls (Demo.compared "crm.tag") = calls Demo.start ++ t ∧
    filter (λ c, is_authenticate c) t =
      [login_call Demo.src_client; login_call Demo.dst_client;
       login_call Demo.src_client; login_call Demo.dst_client].
Proof.
  apply (migration_logs_in_four_times Demo.src Demo.dst "crm.tag" None None
           Demo.start Demo.connected (Demo.read "crm.tag")
           (Demo.reconnected "crm.tag") (Demo.compared "crm.tag")
           Demo.src_client Demo.dst_client (Demo.src_rows "crm.tag")
           Demo.cmp);
    vm_compute; reflexivity.
Defined.
